(** * gotell: the comment submission handler of the API server

    A shallow embedding of [postComment] and [verify] (package [api]) and of
    the pieces of the Go runtime and standard library they rest on.

    Conventions.
    - A Go [string] is a sequence of bytes: Rocq's [string].  A Go [int] is a
      [Z]; [len] is [len_].
    - An operation that can panic in Go (indexing, slicing, a nil pointer
      dereference) returns a [Result]; the handler threads it through the
      monad [M].
    - [strings.ToLower], [strings.TrimSpace] and the regular expressions work
      on Unicode code points in Go.  They are modelled on bytes, which is
      exact on ASCII text; a byte above 127 is kept by [ToLower], is not
      white space, is not a word character and is not a digit. *)

From Stdlib Require Import ZArith Ascii String List Bool Lia.
From stdpp Require Import base option strings gmap pretty.

Local Open Scope Z_scope.

(** ** Bytes *)

Definition byte_in (lo hi : N) (c : ascii) : bool :=
  ((lo <=? N_of_ascii c) && (N_of_ascii c <=? hi))%N.

Definition is_digit (c : ascii) : bool := byte_in 48 57 c.
Definition is_upper (c : ascii) : bool := byte_in 65 90 c.
Definition is_lower (c : ascii) : bool := byte_in 97 122 c.

(** [\w] of Go's regexp syntax: [0-9A-Za-z_]. *)
Definition is_word (c : ascii) : bool :=
  is_digit c || is_upper c || is_lower c || (N_of_ascii c =? 95)%N.

(** [\s] of Go's regexp syntax: tab, line feed, form feed, carriage return, space. *)
Definition is_regexp_space (c : ascii) : bool :=
  let n := N_of_ascii c in
  ((n =? 9) || (n =? 10) || (n =? 12) || (n =? 13) || (n =? 32))%N.

(** White space of [strings.TrimSpace] (ASCII part): as above plus vertical tab. *)
Definition is_space (c : ascii) : bool :=
  let n := N_of_ascii c in
  ((n =? 9) || (n =? 10) || (n =? 11) || (n =? 12) || (n =? 13) || (n =? 32))%N.

Definition lower_byte (c : ascii) : ascii :=
  if is_upper c then ascii_of_N (N_of_ascii c + 32) else c.

Definition newline : ascii := ascii_of_N 10.
Definition hyphen : ascii := ascii_of_N 45.

(** ** Results of operations that can panic *)

Inductive Result (A : Type) : Type :=
| Ok (a : A)
| Panic (msg : string).
Arguments Ok {A} a.
Arguments Panic {A} msg.

(** ** Strings *)

Definition len_ (s : string) : Z := Z.of_nat (String.length s).

(** [s[lo:hi]]: panics unless [0 <= lo <= hi <= len(s)]. *)
Definition slice (s : string) (lo hi : Z) : Result string :=
  if (0 <=? lo) && (lo <=? hi) && (hi <=? len_ s)
  then Ok (String.substring (Z.to_nat lo) (Z.to_nat (hi - lo)) s)
  else Panic "slice bounds out of range".

(** [a[i]] on a slice of strings: panics when [i] is out of range. *)
Definition index_ (a : list string) (i : nat) : Result string :=
  match nth_error a i with
  | Some x => Ok x
  | None => Panic "index out of range"
  end.

Definition Min (x y : Z) : Z := if x <? y then x else y.

Fixpoint map_bytes (f : ascii -> ascii) (s : string) : string :=
  match s with
  | EmptyString => EmptyString
  | String c r => String (f c) (map_bytes f r)
  end.

(** [strings.ToLower] on ASCII text: [A] to [Z] become [a] to [z].  Go also
    maps the upper-case letters outside ASCII, which are not modelled: every
    byte above 127 is kept, so the result is Go's only for ASCII strings. *)
Definition ToLower (s : string) : string := map_bytes lower_byte s.

Fixpoint TrimLeftFunc (f : ascii -> bool) (s : string) : string :=
  match s with
  | EmptyString => EmptyString
  | String c r => if f c then TrimLeftFunc f r else s
  end.

Fixpoint TrimRightFunc (f : ascii -> bool) (s : string) : string :=
  match s with
  | EmptyString => EmptyString
  | String c r =>
      match TrimRightFunc f r with
      | EmptyString => if f c then EmptyString else String c EmptyString
      | r' => String c r'
      end
  end.

Definition TrimFunc (f : ascii -> bool) (s : string) : string :=
  TrimRightFunc f (TrimLeftFunc f s).

(** [strings.TrimSpace] on ASCII text.  Go also strips the white space
    outside ASCII (U+0085, U+00A0 and the like), which is not modelled: the
    result is Go's only for strings that neither start nor end with such a
    code point, ASCII strings among them. *)
Definition TrimSpace (s : string) : string := TrimFunc is_space s.

(** [strings.Trim(s, cutset)]: strips the bytes of [cutset] from both ends. *)
Fixpoint mem_byte (c : ascii) (cutset : string) : bool :=
  match cutset with
  | EmptyString => false
  | String d r => Ascii.eqb c d || mem_byte c r
  end.

Definition Trim (s cutset : string) : string :=
  TrimFunc (fun c => mem_byte c cutset) s.

Fixpoint HasPrefix (s prefix : string) {struct prefix} : bool :=
  match prefix, s with
  | EmptyString, _ => true
  | String p pr, String c r => Ascii.eqb c p && HasPrefix r pr
  | String _ _, EmptyString => false
  end.

(** [strings.Index]: the position of the first instance of [substr], or -1. *)
Fixpoint Index (s substr : string) : Z :=
  if HasPrefix s substr then 0
  else match s with
       | EmptyString => -1
       | String _ r => let i := Index r substr in if i <? 0 then -1 else i + 1
       end.

Definition Contains (s substr : string) : bool := 0 <=? Index s substr.

Fixpoint Count (s substr : string) (fuel : nat) : Z :=
  match fuel with
  | O => 0
  | S fuel' =>
      let i := Index s substr in
      if i <? 0 then 0
      else 1 + Count (String.substring (Z.to_nat (i + len_ substr))
                        (String.length s) s) substr fuel'
  end.

(** The loop of [strings.genSplit] for a separator that is not empty: at most
    [k] pieces are cut off, each keeping [sepSave] bytes of the separator, and
    what is left is the last element. *)
Fixpoint genSplit_loop (s sep : string) (sepSave : Z) (k : nat) : list string :=
  match k with
  | O => [s]
  | S k' =>
      let m := Index s sep in
      if m <? 0 then [s]
      else String.substring 0 (Z.to_nat (m + sepSave)) s
           :: genSplit_loop (String.substring (Z.to_nat (m + len_ sep))
                               (String.length s) s) sep sepSave k'
  end.

(** [strings.genSplit(s, sep, sepSave, n)] for a separator that is not empty
    (the only use in this program). *)
Definition genSplit (s sep : string) (sepSave n : Z) : list string :=
  if n =? 0 then []
  else
    let n := if n <? 0 then Count s sep (String.length s) + 1 else n in
    let n := if len_ s + 1 <? n then len_ s + 1 else n in
    genSplit_loop s sep sepSave (Z.to_nat (n - 1)).

Definition Split (s sep : string) : list string := genSplit s sep 0 (-1).
Definition SplitAfterN (s sep : string) (n : Z) : list string :=
  genSplit s sep (len_ sep) n.

(** ** The regular expressions of the package *)

(** The longest prefix of [s] whose bytes satisfy [f], and the rest. *)
Fixpoint span (f : ascii -> bool) (s : string) : string * string :=
  match s with
  | EmptyString => (EmptyString, EmptyString)
  | String c r =>
      if f c then let '(a, b) := span f r in (String c a, b)
      else (EmptyString, s)
  end.

(** [slugify = regexp.MustCompile(`\W`)], [slugify.ReplaceAllString(s, repl)]. *)
Fixpoint slugify_ReplaceAllString (s repl : string) : string :=
  match s with
  | EmptyString => EmptyString
  | String c r =>
      if is_word c then String c (slugify_ReplaceAllString r repl)
      else repl +:+ slugify_ReplaceAllString r repl
  end.

(** [squeeze = regexp.MustCompile(`-+`)], [squeeze.ReplaceAllString(s, repl)]:
    every maximal run of hyphens is replaced once.  [in_run] tells that the
    byte before was a hyphen of the run being replaced. *)
Fixpoint squeeze_go (in_run : bool) (s repl : string) : string :=
  match s with
  | EmptyString => EmptyString
  | String c r =>
      if Ascii.eqb c hyphen
      then if in_run then squeeze_go true r repl
           else repl +:+ squeeze_go true r repl
      else String c (squeeze_go false r repl)
  end.

Definition squeeze_ReplaceAllString (s repl : string) : string :=
  squeeze_go false s repl.

(** [threadRegexp = regexp.MustCompile(`(\d+)-(\d+)-(.+)`)] tried at the
    start of [s]: a run of digits, a hyphen, a run of digits, a hyphen and
    every byte up to the end of the line, each run not empty. *)
Definition threadRegexp_match_here (s : string) : option (list string) :=
  let '(g1, r1) := span is_digit s in
  match g1, r1 with
  | String _ _, String h1 r2 =>
      if Ascii.eqb h1 hyphen then
        let '(g2, r3) := span is_digit r2 in
        match g2, r3 with
        | String _ _, String h2 r4 =>
            if Ascii.eqb h2 hyphen then
              let '(g3, _) := span (fun c => negb (Ascii.eqb c newline)) r4 in
              match g3 with
              | String _ _ =>
                  Some [g1 +:+ "-" +:+ g2 +:+ "-" +:+ g3; g1; g2; g3]
              | EmptyString => None
              end
            else None
        | _, _ => None
        end
      else None
  | _, _ => None
  end.

(** [threadRegexp.FindStringSubmatch(s)]: the leftmost match with its three
    groups, or nil (the empty list). *)
Fixpoint threadRegexp_FindStringSubmatch (s : string) : list string :=
  match threadRegexp_match_here s with
  | Some m => m
  | None =>
      match s with
      | EmptyString => []
      | String _ r => threadRegexp_FindStringSubmatch r
      end
  end.

(** [bearerRegexp = regexp.MustCompile(`^(?:B|b)earer (\S+$)`)],
    [bearerRegexp.FindStringSubmatch(s)]. *)
Definition bearerRegexp_FindStringSubmatch (s : string) : list string :=
  match s with
  | String b r =>
      if (Ascii.eqb b "B" || Ascii.eqb b "b") && HasPrefix r "earer " then
        let tok := String.substring 6 (String.length r) r in
        let '(g, rest) := span (fun c => negb (is_regexp_space c)) tok in
        match g, rest with
        | String _ _, EmptyString => [s; g]
        | _, _ => []
        end
      else []
  | EmptyString => []
  end.

(** ** Content Namer: lines 102 and 103 of [postComment] *)

(** [firstParagraph := strings.SplitAfterN(strings.ToLower(strings.TrimSpace(
      comment.Body[0:len(comment.Body)])), "\n", 1)[0]] *)
Definition firstParagraph_of (Body : string) : Result string :=
  match slice Body 0 (len_ Body) with
  | Panic m => Panic m
  | Ok b =>
      index_ (SplitAfterN (ToLower (TrimSpace b)) (String newline "") 1) 0
  end.

(** [name := squeeze.ReplaceAllString(strings.Trim(slugify.ReplaceAllString(
      firstParagraph[0:Min(50, len(firstParagraph))], "-"), "-"), "-")] *)
Definition name_of (firstParagraph : string) : Result string :=
  match slice firstParagraph 0 (Min 50 (len_ firstParagraph)) with
  | Panic m => Panic m
  | Ok cut =>
      Ok (squeeze_ReplaceAllString
            (Trim (slugify_ReplaceAllString cut "-") "-") "-")
  end.

Definition slug (Body : string) : Result string :=
  match firstParagraph_of Body with
  | Panic m => Panic m
  | Ok fp => name_of fp
  end.

Definition hello_body : string :=
  "Hello, World!" +:+ String newline "more text".

(** ** Data of the handler *)

(** Modelled from the spec: the struct [comments.RawComment], declared in
    another file of package [comments].  Its fields are the ones of the persisted
    comment schema: author, email, URL, body and the fields the server
    assigns (IP, ID, date, verified). *)
Record RawComment : Type := mkRawComment {
  Author : string;
  Email : string;
  URL : string;
  Body : string;
  IP : string;
  ID : string;
  Date : string;
  Verified : bool
}.

(** Modelled from the spec: the struct [settings], declared in another file
    of package [api].  The fields are the ones [postComment] reads;
    [TimeLimit] is an integer count of nanoseconds, converted by
    [time.Duration(settings.TimeLimit)]. *)
Record settings : Type := mkSettings {
  BannedIPs : list string;
  BannedEmails : list string;
  BannedKeywords : list string;
  TimeLimit : Z;
  RequireApproval : bool
}.

(** Modelled from the spec: the struct [s.entryData(entryPath)] returns,
    declared in another file of package [api], with the two fields
    [postComment] reads.  A [time.Time] is a count of
    nanoseconds since the Unix epoch. *)
Record EntryData : Type := mkEntryData {
  Thread : string;
  CreatedAt : Z
}.

(** Modelled from the spec: the struct [conf.Configuration], declared in
    package [conf]; the fields are the ones the handler reads,
    [config.API.Repository], [config.Threads.Source], [config.JWT.Secret]. *)
Record Configuration : Type := mkConfiguration {
  API_Repository : string;
  Threads_Source : string;
  JWT_Secret : string
}.

(** A Go result [(value, err)] of which one side is used. *)
Inductive GoErr (A : Type) : Type :=
| Val (a : A)
| Err (err : string).
Arguments Val {A} a.
Arguments Err {A} err.

(** [*http.Request]: the parts the handler reads. *)
Record Request : Type := mkRequest {
  Request_URL_Path : string;
  Request_RemoteAddr : string;
  Request_Header : gmap string (list string);
  Request_Body : string
}.

(** [http.Header.Get]: the first value of the key, or the empty string. *)
Definition Header_Get (h : gmap string (list string)) (key : string) : string :=
  match h !! key with
  | Some (v :: _) => v
  | _ => ""
  end.

(** [http.ResponseWriter]: the header map, the status line once it is
    written, and the bytes of the body. *)
Record ResponseWriter : Type := mkResponseWriter {
  header : gmap string (list string);
  status : option Z;
  body : string
}.

(** *** The content store: go-github *)

Record RepositoryCommit : Type := mkRepositoryCommit { SHA : option string }.

Record Branch : Type := mkBranch {
  Name : option string;
  Commit : option RepositoryCommit
}.

(** [GetSHA] on a [RepositoryCommit] pointer: safe on a nil receiver. *)
Definition GetSHA (c : option RepositoryCommit) : string :=
  match c with
  | Some {| SHA := Some sha |} => sha
  | _ => ""
  end.

(** The calls the handler makes on [s.client], with their arguments. *)
Inductive StoreCall : Type :=
| Repositories_GetBranch (owner repo branch : string)
| Git_CreateRef (owner repo ref sha : string)
| Repositories_CreateFile (owner repo path message content branch : string)
| PullRequests_Create (owner repo title head : string) (base : option string).

(** What the content store answers to each call of one request.  [GetBranch]
    answers a branch pointer (nil is [None]) and an error (nil is [None]);
    go-github returns a nil branch whenever it returns an error. *)
Record Client : Type := mkClient {
  GetBranch_answer : option Branch * option string;
  CreateRef_answer : option string;
  CreateFile_answer : option string;
  PullRequests_Create_answer : option string
}.

(** *** jwt-go *)

(** A decoded JSON value, as an [interface{}] holds it; arrays and objects
    keep their text only. *)
Inductive JsonValue : Type :=
| JNull
| JBool (b : bool)
| JNumber (literal : string)
| JString (s : string)
| JArray (raw : string)
| JObject (raw : string).

(** [*jwt.Token] as [jwt.Parse] builds it: [Claims] is a [jwt.MapClaims]. *)
Record Token : Type := mkToken {
  Method_Alg : string;
  Claims : gmap string JsonValue;
  SigningString : string;
  Signature : string;
  Valid : bool
}.

(** ** What the handler takes from its surroundings *)

Record Env : Type := mkEnv {
  (** the server: [s.config], [s.client], and the methods [s.getSettings] and
      [s.entryData], which are defined in other files of the package *)
  config : Configuration;
  client : Client;
  getSettings : settings;
  entryData : string -> GoErr EntryData;
  (** package [comments] *)
  ParsedComment : Type;
  IsSuspicious : RawComment -> bool;
  ParseRaw : RawComment -> ParsedComment;
  (** [time]: the successive readings of [time.Now()], [Time.String] *)
  clock : nat -> Z;
  Time_String : Z -> string;
  (** [encoding/json]: decoding the request body into a [RawComment],
      marshalling, and the line [Encode] writes for [{"msg": message}] *)
  json_Decode : string -> GoErr RawComment;
  json_Marshal_RawComment : RawComment -> string;
  json_Marshal_ParsedComment : ParsedComment -> string;
  json_Encode_msg : string -> string;
  (** [path.Join] *)
  path_Join : list string -> string;
  (** jwt-go: splitting and decoding a token without checking it (its header,
      claims, signing string and signature), the claims' own validity
      (expiry and the like), and [SigningMethod.Verify] by algorithm name *)
  jwt_ParseUnverified : string -> GoErr Token;
  MapClaims_Valid : gmap string JsonValue -> bool;
  SigningMethod_Verify : string -> string -> string -> string -> bool
}.

(** ** The handler's effects *)

(** What a request has done so far: the response, the calls made on the
    content store (oldest first), and how often the clock was read. *)
Record HandlerState : Type := mkHandlerState {
  w : ResponseWriter;
  calls : list StoreCall;
  ticks : nat
}.

Definition M (A : Type) : Type := HandlerState -> Result A * HandlerState.

Definition ret {A} (a : A) : M A := fun st => (Ok a, st).

Definition bind {A B} (m : M A) (k : A -> M B) : M B :=
  fun st =>
    match m st with
    | (Ok a, st') => k a st'
    | (Panic msg, st') => (Panic msg, st')
    end.

Declare Scope handler_scope.
Delimit Scope handler_scope with handler.
Notation "x <- m ;; k" := (bind m (fun x => k))
  (at level 100, m at next level, right associativity) : handler_scope.
Notation "m ;; k" := (bind m (fun _ => k))
  (at level 100, right associativity) : handler_scope.
Local Open Scope handler_scope.

(** A value that may have panicked. *)
Definition lift {A} (r : Result A) : M A := fun st => (r, st).

Definition modify_w (f : ResponseWriter -> ResponseWriter) : M unit :=
  fun st => (Ok tt, mkHandlerState (f (w st)) (calls st) (ticks st)).

(** [w.Header().Set(key, value)] *)
Definition Header_Set (key value : string) : M unit :=
  modify_w (fun r => mkResponseWriter (<[key := [value]]> (header r)) (status r) (body r)).

(** [w.Header().Add(key, value)] *)
Definition Header_Add (key value : string) : M unit :=
  modify_w (fun r =>
    mkResponseWriter (<[key := default [] (header r !! key) ++ [value]]> (header r))
                     (status r) (body r)).

(** [w.WriteHeader(code)]: the first status written stays. *)
Definition WriteHeader (code : Z) : M unit :=
  modify_w (fun r =>
    mkResponseWriter (header r)
                     (match status r with None => Some code | Some c => Some c end)
                     (body r)).

(** [w.Write(bytes)]: writes status 200 first when none was written. *)
Definition Write (bytes : string) : M unit :=
  WriteHeader 200 ;;
  modify_w (fun r => mkResponseWriter (header r) (status r) (body r +:+ bytes)).

(** [fmt.Fprintln(w, s)] *)
Definition Fprintln (s : string) : M unit := Write (s +:+ String newline "").

(** One call on the content store, recorded. *)
Definition store (c : StoreCall) : M unit :=
  fun st => (Ok tt, mkHandlerState (w st) (calls st ++ [c]) (ticks st)).

Definition int64_max : Z := 9223372036854775807.
Definition int64_min : Z := -9223372036854775808.

(** [t.Sub(u)]: the difference as a [time.Duration], which saturates. *)
Definition Time_Sub (t u : Z) : Z :=
  let d := t - u in
  if int64_max <? d then int64_max
  else if d <? int64_min then int64_min
  else d.

Definition set_Valid (t : Token) (v : bool) : Token :=
  mkToken (Method_Alg t) (Claims t) (SigningString t) (Signature t) v.

(** Lines 94 to 97: the fields the server assigns. *)
Definition assign (c : RawComment) (ip date id : string) (verified : bool) : RawComment :=
  mkRawComment (Author c) (Email c) (URL c) (Body c) ip id date verified.

(** The test both ban loops make on one list entry (lines 79 and 87). *)
Definition mentions (comment : RawComment) (banned : string) : bool :=
  Contains (Email comment) banned || Contains (Body comment) banned
  || Contains (URL comment) banned.

Section Handler.

Context (E : Env).

(** [time.Now()]: the next reading of the clock. *)
Definition time_Now : M Z :=
  fun st => (Ok (clock E (ticks st)), mkHandlerState (w st) (calls st) (S (ticks st))).

(** [jsonError(w, message, status)] *)
Definition jsonError (message : string) (code : Z) : M unit :=
  WriteHeader code ;;
  Write (json_Encode_msg E message).

(** [jwt.Parse(tokenString, keyFunc)] of jwt-go: the token is decoded, the
    key is asked of [keyFunc], the claims and the signature are checked, and
    the token is marked valid when nothing failed. *)
Definition jwt_Parse (tokenString : string) (keyFunc : Token -> GoErr string)
  : GoErr Token :=
  match jwt_ParseUnverified E tokenString with
  | Err err => Err err
  | Val token =>
      match keyFunc token with
      | Err err => Err err
      | Val key =>
          if MapClaims_Valid E (Claims token)
             && SigningMethod_Verify E (Method_Alg token) (SigningString token)
                  (Signature token) key
          then Val (set_Valid token true)
          else Err "token is invalid"
      end
  end.

(** The key function [verify] hands to [jwt.Parse] (lines 186 to 191). *)
Definition verify_keyFunc (token : Token) : GoErr string :=
  if negb (String.eqb (Method_Alg token) "HS256")
  then Err ("Unexpected signing method: " +:+ Method_Alg token)
  else Val (JWT_Secret (config E)).

(** [func (s *Server) verify(email string, r *http.Request) bool]; the log
    lines are left out. *)
Definition verify (email : string) (r : Request) : Result bool :=
  let authHeader := Header_Get (Request_Header r) "Authorization" in
  if String.eqb authHeader "" then Ok false
  else
    let matches := bearerRegexp_FindStringSubmatch authHeader in
    if negb (Nat.eqb (List.length matches) 2) then Ok false
    else
      match index_ matches 1 with
      | Panic msg => Panic msg
      | Ok tokenString =>
          match jwt_Parse tokenString verify_keyFunc with
          | Err _ => Ok false
          | Val token =>
              if Valid token then
                match Claims token !! "email" with
                | Some (JString claimedEmail) => Ok (String.eqb claimedEmail email)
                | Some _ => Ok false
                | None => Ok false
                end
              else Ok false
          end
      end.

(** Lines 168 to 170: the response of a comment that was filed. *)
Definition respond (comment : RawComment) : M unit :=
  let parsedComment := ParseRaw E comment in
  let response := json_Marshal_ParsedComment E parsedComment in
  Write response.

(** Lines 115 to 153: the branch taken when the comment needs approval. *)
Definition reviewed (parts : list string) (pathname content firstParagraph : string)
    (comment : RawComment) : M unit :=
  let branch := "comment-" +:+ ID comment in
  p0 <- lift (index_ parts 0) ;;
  p1 <- lift (index_ parts 1) ;;
  store (Repositories_GetBranch p0 p1 "master") ;;
  let '(master, err) := GetBranch_answer (client E) in
  match master with
  | None => lift (Panic "invalid memory address or nil pointer dereference")
  | Some master =>
      let sha := GetSHA (Commit master) in
      let refName := "refs/heads/" +:+ branch in
      match err with
      | Some err => jsonError ("Failed to write comment: " +:+ err) 500
      | None =>
          store (Git_CreateRef p0 p1 refName sha) ;;
          match CreateRef_answer (client E) with
          | Some err => jsonError ("Failed to create comment branch: " +:+ err) 500
          | None =>
              let message := firstParagraph in
              store (Repositories_CreateFile p0 p1 pathname message content branch) ;;
              match CreateFile_answer (client E) with
              | Some err => jsonError ("Failed to write comment: " +:+ err) 500
              | None =>
                  store (PullRequests_Create p0 p1 message branch (Name master)) ;;
                  match PullRequests_Create_answer (client E) with
                  | Some err => jsonError ("Failed to create PR: " +:+ err) 500
                  | None => respond comment
                  end
              end
          end
      end
  end.

(** Lines 155 to 165: the comment is written to the published branch. *)
Definition direct (parts : list string) (pathname content firstParagraph : string)
    (comment : RawComment) : M unit :=
  let branch := "master" in
  let message := firstParagraph in
  p0 <- lift (index_ parts 0) ;;
  p1 <- lift (index_ parts 1) ;;
  store (Repositories_CreateFile p0 p1 pathname message content branch) ;;
  match CreateFile_answer (client E) with
  | Some err => jsonError ("Failed to write comment: " +:+ err) 500
  | None => respond comment
  end.

(** Lines 99 to 166: the stamped comment is named and handed to one of the
    two branches. *)
Definition file_stamped (settings : settings) (entryData : EntryData)
    (comment : RawComment) : M unit :=
  let parts := Split (API_Repository (config E)) "/" in
  let matches := threadRegexp_FindStringSubmatch (Thread entryData) in
  m1 <- lift (index_ matches 1) ;;
  m2 <- lift (index_ matches 2) ;;
  m3 <- lift (index_ matches 3) ;;
  let dir := m1 +:+ "/" +:+ m2 +:+ "/" +:+ m3 in
  firstParagraph <- lift (firstParagraph_of (Body comment)) ;;
  name <- lift (name_of firstParagraph) ;;
  now <- time_Now ;;
  let pathname :=
    path_Join E [Threads_Source (config E); dir;
                 pretty (Z.quot now 1000000) +:+ "-" +:+ name +:+ ".json"] in
  let content := json_Marshal_RawComment E comment in
  if RequireApproval settings || IsSuspicious E comment
  then reviewed parts pathname content firstParagraph comment
  else direct parts pathname content firstParagraph comment.

(** Lines 94 to 166: a comment that passed the gates is stamped with the
    fields the server assigns, then filed. *)
Definition file_comment (req : Request) (settings : settings)
    (entryData : EntryData) (comment : RawComment) : M unit :=
  date <- time_Now ;;
  id <- time_Now ;;
  verified <- lift (verify (Email comment) req) ;;
  file_stamped settings entryData
    (assign comment (Request_RemoteAddr req) (Time_String E date) (pretty id) verified).

(** [func (s *Server) postComment(ctx, w, req)] *)
Definition postComment (req : Request) : M unit :=
  let entryPath := Request_URL_Path req in
  Header_Set "Content-Type" "application/json" ;;
  let settings := getSettings E in
  if existsb (fun ip => String.eqb (Request_RemoteAddr req) ip) (BannedIPs settings)
  then Header_Add "X-Banned" "IP-Banned" ;; Fprintln "{}"
  else
    match entryData E entryPath with
    | Err err => jsonError ("Unable to read entry data: " +:+ err) 400
    | Val entryData =>
        closed <- (if negb (TimeLimit settings =? 0)
                   then now <- time_Now ;;
                        ret (TimeLimit settings <? Time_Sub now (CreatedAt entryData))
                   else ret false) ;;
        if closed : bool
        then jsonError "Thread is closed for new comments" 401
        else
          match json_Decode E (Request_Body req) with
          | Err err => jsonError ("Error decoding JSON body: " +:+ err) 422
          | Val comment =>
              if existsb (mentions comment) (BannedEmails settings)
              then Header_Add "X-Banned" "Email-Banned" ;; Fprintln "{}"
              else if existsb (mentions comment) (BannedKeywords settings)
              then Header_Add "X-Banned" "Keyword-Banned" ;; Fprintln "{}"
              else file_comment req settings entryData comment
          end
    end.

Definition no_response : ResponseWriter := mkResponseWriter ∅ None "".
Definition start : HandlerState := mkHandlerState no_response [] 0.

(** One request served: how the handler ended and what it did. *)
Definition serve (req : Request) : Result unit * HandlerState :=
  postComment req start.

End Handler.

(** ** A concrete deployment, used to run the handler *)

Definition demo_settings : settings :=
  mkSettings ["10.0.0.9:4000"] ["spam@example.org"] ["casino"] 1000 false.

Definition demo_comment : RawComment :=
  mkRawComment "Ann" "ann@example.org" "https://ann.example.org"
               hello_body "" "" "" false.

Definition spam_comment : RawComment :=
  mkRawComment "Bob" "bob@example.org" "" "visit my casino tonight" "" "" "" false.

Definition demo_token : Token :=
  mkToken "HS256" {["email" := JString "ann@example.org"]} "h.c" "sig" false.

(** The same claims with a signature that does not verify, and under the
    algorithm [none]. *)
Definition forged_token : Token :=
  mkToken "HS256" {["email" := JString "ann@example.org"]} "h.c" "bad" false.

Definition unsigned_token : Token :=
  mkToken "none" {["email" := JString "ann@example.org"]} "n.c" "" false.

Definition demo_master : Branch :=
  mkBranch (Some "master") (Some (mkRepositoryCommit (Some "c0ffee"))).

Definition demo_client : Client :=
  mkClient (Some demo_master, None) None None None.

Definition demo_env_with (st : settings) (cl : Client) (thread : string) : Env :=
  {| config := mkConfiguration "netlify/gotell" "threads" "secret";
     client := cl;
     getSettings := st;
     entryData := fun p =>
       if String.eqb p "/2016/10/my-post" then Val (mkEntryData thread 500)
       else Err "not found";
     ParsedComment := RawComment;
     IsSuspicious := fun c => Contains (Body c) "http://";
     ParseRaw := fun c => c;
     clock := fun n => 1000 + Z.of_nat n;
     Time_String := fun t => pretty t;
     json_Decode := fun b =>
       if String.eqb b "ann" then Val demo_comment
       else if String.eqb b "bob" then Val spam_comment
       else Err "unexpected end of JSON input";
     json_Marshal_RawComment := fun c => Body c;
     json_Marshal_ParsedComment := fun c => Body c;
     json_Encode_msg := fun m => m;
     path_Join := fun l => fold_right (fun a b => a +:+ "/" +:+ b) "" l;
     jwt_ParseUnverified := fun t =>
       if String.eqb t "h.c.sig" then Val demo_token
       else if String.eqb t "h.c.bad" then Val forged_token
       else if String.eqb t "n.c." then Val unsigned_token
       else Err "token is malformed";
     MapClaims_Valid := fun _ => true;
     SigningMethod_Verify := fun alg s sig key =>
       String.eqb alg "HS256" && String.eqb sig "sig" && String.eqb key "secret" |}.

Definition demo_env : Env := demo_env_with demo_settings demo_client "2016-10-my-post".

Definition demo_request : Request :=
  mkRequest "/2016/10/my-post" "10.0.0.1:4000"
            {["Authorization" := ["Bearer h.c.sig"]]} "ann".

(** ** Vocabulary of the statements *)

(** [sub] occurs in [s], byte for byte. *)
Definition substring_of (sub s : string) : Prop :=
  exists pre post, s = pre +:+ sub +:+ post.

(** The comment's email, body or URL contains [banned]. *)
Definition Mentions (comment : RawComment) (banned : string) : Prop :=
  substring_of banned (Email comment) \/ substring_of banned (Body comment)
  \/ substring_of banned (URL comment).

(** The state right after [Content-Type] is set. *)
Definition json_header : gmap string (list string) :=
  <["Content-Type" := ["application/json"]]> ∅.

(** The silent rejection: status 200, the empty JSON object on a line, and
    the [X-Banned] header naming the category. *)
Definition silent_ban (category : string) : ResponseWriter :=
  mkResponseWriter (<["X-Banned" := [category]]> json_header) (Some 200)
                   ("{}" +:+ String newline "").

(** The visible rejection [jsonError] writes. *)
Definition json_error (E : Env) (message : string) (code : Z) : ResponseWriter :=
  mkResponseWriter json_header (Some code) (json_Encode_msg E message).

(** The age of the thread, read at the first clock reading, is within the
    time limit, or there is no limit. *)
Definition thread_open (E : Env) (entry : EntryData) : Prop :=
  TimeLimit (getSettings E) = 0
  \/ Time_Sub (clock E 0) (CreatedAt entry) <= TimeLimit (getSettings E).

(** The request passes the address gate, resolves to [entry], finds the
    thread open and decodes to [comment]. *)
Definition decoded (E : Env) (req : Request) (entry : EntryData)
    (comment : RawComment) : Prop :=
  ~ In (Request_RemoteAddr req) (BannedIPs (getSettings E))
  /\ entryData E (Request_URL_Path req) = Val entry
  /\ thread_open E entry
  /\ json_Decode E (Request_Body req) = Val comment.

(** The request reaches line 94: it is decoded and mentions nothing banned. *)
Definition reaches_verification (E : Env) (req : Request) (entry : EntryData)
    (comment : RawComment) : Prop :=
  decoded E req entry comment
  /\ (forall b, In b (BannedEmails (getSettings E)) -> ~ Mentions comment b)
  /\ (forall b, In b (BannedKeywords (getSettings E)) -> ~ Mentions comment b).

(** The handler state when the gates are passed: only the clock may have
    been read, once, for the time limit. *)
Definition after_gates (E : Env) : HandlerState :=
  mkHandlerState (mkResponseWriter json_header None "") []
                 (if TimeLimit (getSettings E) =? 0 then 0%nat else 1%nat).

(** Requests and deployments the statements are run on. *)

Definition demo_entry : EntryData := mkEntryData "2016-10-my-post" 500.

(** A banned address asking for a thread that does not resolve, with a body
    that is not JSON. *)
Definition banned_request : Request :=
  mkRequest "/nowhere" "10.0.0.9:4000" ∅ "{not json".

(** The same address writing to a thread that resolves. *)
Definition banned_request_to_thread : Request :=
  mkRequest "/2016/10/my-post" "10.0.0.9:4000" ∅ "ann".

Definition spam_request : Request :=
  mkRequest "/2016/10/my-post" "10.0.0.1:4000" ∅ "bob".

(** A deployment whose time limit (100ns) the demo thread has outlived: it
    was created at 500 and the clock starts at 1000. *)
Definition short_limit_settings : settings :=
  mkSettings ["10.0.0.9:4000"] ["spam@example.org"] ["casino"] 100 false.

Definition closed_env : Env :=
  demo_env_with short_limit_settings demo_client "2016-10-my-post".

(** A deployment without a time limit. *)
Definition unlimited_settings : settings :=
  mkSettings ["10.0.0.9:4000"] ["spam@example.org"] ["casino"] 0 false.

Definition unlimited_env : Env :=
  demo_env_with unlimited_settings demo_client "2016-10-my-post".

(** A deployment whose thread identifier has no digits. *)
Definition malformed_thread_env : Env :=
  demo_env_with demo_settings demo_client "hello".

(** A deployment that requires approval and whose store fails to resolve
    the head of the published branch: go-github answers a nil branch and the
    error. *)
Definition approval_settings : settings :=
  mkSettings ["10.0.0.9:4000"] ["spam@example.org"] ["casino"] 1000 true.

Definition head_failure_client : Client :=
  mkClient (None, Some "GET branches/master: 404 Not Found") None None None.

Definition head_failure_env : Env :=
  demo_env_with approval_settings head_failure_client "2016-10-my-post".

(** What the handler has done when it panics before writing anything. *)
Definition nothing_written (n : nat) (made : list StoreCall) : HandlerState :=
  mkHandlerState (mkResponseWriter json_header None "") made n.

(** The four operations of the content store interface. *)
Inductive StoreOp : Type :=
| GetBranchHead
| CreateBranch
| CreateFile
| CreateProposedChange.

Definition op_of (c : StoreCall) : StoreOp :=
  match c with
  | Repositories_GetBranch _ _ _ => GetBranchHead
  | Git_CreateRef _ _ _ _ => CreateBranch
  | Repositories_CreateFile _ _ _ _ _ _ => CreateFile
  | PullRequests_Create _ _ _ _ _ => CreateProposedChange
  end.

(** The comment as it stands after lines 94 to 97, for a verification
    outcome [verified]: the date and the identifier are the two clock
    readings that follow the gates. *)
Definition stamped (E : Env) (req : Request) (comment : RawComment)
    (verified : bool) : RawComment :=
  let k := ticks (after_gates E) in
  assign comment (Request_RemoteAddr req) (Time_String E (clock E k))
         (pretty (clock E (S k))) verified.

(** The request with other headers. *)
Definition with_header (req : Request) (h : gmap string (list string)) : Request :=
  mkRequest (Request_URL_Path req) (Request_RemoteAddr req) h (Request_Body req).

(** A store call with the file content left out. *)
Definition without_content (c : StoreCall) : StoreCall :=
  match c with
  | Repositories_CreateFile owner repo path message _ branch =>
      Repositories_CreateFile owner repo path message "" branch
  | _ => c
  end.

(** The file content of a call is [content], when the call writes a file. *)
Definition writes (content : string) (c : StoreCall) : Prop :=
  match c with
  | Repositories_CreateFile _ _ _ _ content' _ => content' = content
  | _ => True
  end.

Definition set_Verified (c : RawComment) (v : bool) : RawComment :=
  mkRawComment (Author c) (Email c) (URL c) (Body c) (IP c) (ID c) (Date c) v.

(** The calls of a review that runs to its end. *)
Definition review_calls (owner repo pathname content message : string)
    (c : RawComment) (master : Branch) : list StoreCall :=
  [Repositories_GetBranch owner repo "master";
   Git_CreateRef owner repo ("refs/heads/" +:+ "comment-" +:+ ID c) (GetSHA (Commit master));
   Repositories_CreateFile owner repo pathname message content ("comment-" +:+ ID c);
   PullRequests_Create owner repo message ("comment-" +:+ ID c) (Name master)].


(** The header reads [Bearer <token>], the scheme in any mix of cases. *)
Definition bearer_header (h tok : string) : Prop :=
  exists scheme, h = scheme +:+ " " +:+ tok /\ ToLower scheme = "bearer" /\ tok <> "".

(** The token string decodes to [token], which names HS256 and whose
    signature HS256 accepts under the configured secret. *)
Definition validly_signed (E : Env) (tok : string) (token : Token) : Prop :=
  jwt_ParseUnverified E tok = Val token
  /\ Method_Alg token = "HS256"
  /\ SigningMethod_Verify E "HS256" (SigningString token) (Signature token)
       (JWT_Secret (config E)) = true.

(** The demo request under another Authorization header. *)
Definition authorized (value : string) : Request :=
  with_header demo_request {["Authorization" := [value]]}.

(** A store that resolves the head and then refuses to create the branch. *)
Definition branch_failure_client : Client :=
  mkClient (Some demo_master, None) (Some "422 Reference already exists") None None.

Definition branch_failure_env : Env :=
  demo_env_with approval_settings branch_failure_client "2016-10-my-post".

(** A store that refuses the write. *)
Definition write_failure_client : Client :=
  mkClient (Some demo_master, None) None (Some "409 Conflict") None.

Definition write_failure_env : Env :=
  demo_env_with demo_settings write_failure_client "2016-10-my-post".

(** A path that does not resolve, and a body that is not JSON. *)
Definition lost_request : Request :=
  mkRequest "/nowhere" "10.0.0.1:4000" ∅ "ann".

Definition garbled_request : Request :=
  mkRequest "/2016/10/my-post" "10.0.0.1:4000" ∅ "{".

(** ** Vocabulary for the names and patterns *)

(** Every byte of [s] satisfies [P]. *)
Fixpoint every (P : ascii -> bool) (s : string) : bool :=
  match s with
  | EmptyString => true
  | String c r => P c && every P r
  end.

Definition first_byte (s : string) : option ascii :=
  match s with
  | EmptyString => None
  | String c _ => Some c
  end.

Fixpoint last_byte (s : string) : option ascii :=
  match s with
  | EmptyString => None
  | String c EmptyString => Some c
  | String _ r => last_byte r
  end.

(** No two hyphens in a row. *)
Fixpoint no_double_hyphen (s : string) : bool :=
  match s with
  | String a (String b _ as t) =>
      negb (Ascii.eqb a hyphen && Ascii.eqb b hyphen) && no_double_hyphen t
  | _ => true
  end.

(** The bytes a name is made of: digits, lower-case letters, the underscore
    and the hyphen. *)
Definition name_byte (c : ascii) : bool :=
  is_digit c || is_lower c || (N_of_ascii c =? 95)%N || Ascii.eqb c hyphen.

Definition not_newline (c : ascii) : bool := negb (Ascii.eqb c newline).
Definition not_regexp_space (c : ascii) : bool := negb (is_regexp_space c).

(** The deployment with another JSON decoder. *)
Definition with_decoder (E : Env) (d : string -> GoErr RawComment) : Env :=
  {| config := config E;
     client := client E;
     getSettings := getSettings E;
     entryData := entryData E;
     ParsedComment := ParsedComment E;
     IsSuspicious := IsSuspicious E;
     ParseRaw := ParseRaw E;
     clock := clock E;
     Time_String := Time_String E;
     json_Decode := d;
     json_Marshal_RawComment := json_Marshal_RawComment E;
     json_Marshal_ParsedComment := json_Marshal_ParsedComment E;
     json_Encode_msg := json_Encode_msg E;
     path_Join := path_Join E;
     jwt_ParseUnverified := jwt_ParseUnverified E;
     MapClaims_Valid := MapClaims_Valid E;
     SigningMethod_Verify := SigningMethod_Verify E |}.

(** The fields of a comment its author supplies. *)
Definition same_submission (c1 c2 : RawComment) : Prop :=
  Author c1 = Author c2 /\ Email c1 = Email c2 /\ URL c1 = URL c2 /\ Body c1 = Body c2.

(** The response of a comment that was filed. *)
Definition filed_response (E : Env) (c : RawComment) : ResponseWriter :=
  mkResponseWriter json_header (Some 200)
                   (json_Marshal_ParsedComment E (ParseRaw E c)).

(** The shapes a request's store calls can have. *)
Definition review_ops : list StoreOp :=
  [GetBranchHead; CreateBranch; CreateFile; CreateProposedChange].

(** The demo comment with the four server fields filled in by its author. *)
Definition forged_comment : RawComment :=
  mkRawComment "Ann" "ann@example.org" "https://ann.example.org"
               hello_body "127.0.0.1" "1" "yesterday" true.

(** The message of the review step that fails, when the [k]-th call (from
    1) is the first to be answered with an error. *)
Definition review_failure (E : Env) (k : nat) : option string :=
  match k with
  | 1%nat =>
      match snd (GetBranch_answer (client E)) with
      | Some err => Some ("Failed to write comment: " +:+ err)
      | None => None
      end
  | 2%nat =>
      match snd (GetBranch_answer (client E)), CreateRef_answer (client E) with
      | None, Some err => Some ("Failed to create comment branch: " +:+ err)
      | _, _ => None
      end
  | 3%nat =>
      match snd (GetBranch_answer (client E)), CreateRef_answer (client E),
            CreateFile_answer (client E) with
      | None, None, Some err => Some ("Failed to write comment: " +:+ err)
      | _, _, _ => None
      end
  | 4%nat =>
      match snd (GetBranch_answer (client E)), CreateRef_answer (client E),
            CreateFile_answer (client E), PullRequests_Create_answer (client E) with
      | None, None, None, Some err => Some ("Failed to create PR: " +:+ err)
      | _, _, _, _ => None
      end
  | _ => None
  end.

(** ** The outcomes of a request, by cause *)

(** How a request ends before a comment is filed, or that it gets as far as
    filing the stamped comment, each with what decides it. *)
Inductive Gate (E : Env) (req : Request) : Result unit * HandlerState -> Prop :=
| Gate_address :
    In (Request_RemoteAddr req) (BannedIPs (getSettings E)) ->
    Gate E req (Ok tt, mkHandlerState (silent_ban "IP-Banned") [] 0)
| Gate_entry (err : string) :
    ~ In (Request_RemoteAddr req) (BannedIPs (getSettings E)) ->
    entryData E (Request_URL_Path req) = Err err ->
    Gate E req
      (Ok tt, mkHandlerState (json_error E ("Unable to read entry data: " +:+ err) 400) [] 0)
| Gate_closed (entry : EntryData) :
    ~ In (Request_RemoteAddr req) (BannedIPs (getSettings E)) ->
    entryData E (Request_URL_Path req) = Val entry ->
    TimeLimit (getSettings E) <> 0 ->
    TimeLimit (getSettings E) < Time_Sub (clock E 0) (CreatedAt entry) ->
    Gate E req
      (Ok tt, mkHandlerState (json_error E "Thread is closed for new comments" 401) [] 1)
| Gate_decode (entry : EntryData) (err : string) :
    ~ In (Request_RemoteAddr req) (BannedIPs (getSettings E)) ->
    entryData E (Request_URL_Path req) = Val entry ->
    thread_open E entry ->
    json_Decode E (Request_Body req) = Err err ->
    Gate E req
      (Ok tt, mkHandlerState (json_error E ("Error decoding JSON body: " +:+ err) 422) []
                (ticks (after_gates E)))
| Gate_email (entry : EntryData) (comment : RawComment) :
    decoded E req entry comment ->
    (exists b, In b (BannedEmails (getSettings E)) /\ Mentions comment b) ->
    Gate E req
      (Ok tt, mkHandlerState (silent_ban "Email-Banned") [] (ticks (after_gates E)))
| Gate_keyword (entry : EntryData) (comment : RawComment) :
    decoded E req entry comment ->
    (forall b, In b (BannedEmails (getSettings E)) -> ~ Mentions comment b) ->
    (exists b, In b (BannedKeywords (getSettings E)) /\ Mentions comment b) ->
    Gate E req
      (Ok tt, mkHandlerState (silent_ban "Keyword-Banned") [] (ticks (after_gates E)))
| Gate_passed (entry : EntryData) (comment : RawComment) (verified : bool) :
    reaches_verification E req entry comment ->
    verify E (Email comment) req = Ok verified ->
    Gate E req
      (file_stamped E (getSettings E) entry (stamped E req comment verified)
         (nothing_written (S (S (ticks (after_gates E)))) [])).

(** How filing the stamped comment [c] ends, from a state in which nothing
    was written and the clock was read [n] times. *)
Inductive Filed (E : Env) (entry : EntryData) (c : RawComment) (n : nat)
  : Result unit * HandlerState -> Prop :=
| Filed_unmatched :
    threadRegexp_FindStringSubmatch (Thread entry) = [] ->
    Filed E entry c n (Panic "index out of range", nothing_written n [])
| Filed_no_repository (owner : string) :
    threadRegexp_FindStringSubmatch (Thread entry) <> [] ->
    Split (API_Repository (config E)) "/" = [owner] ->
    Filed E entry c n (Panic "index out of range", nothing_written (S n) [])
| Filed_direct (owner repo : string) (rest : list string) (pathname : string) :
    threadRegexp_FindStringSubmatch (Thread entry) <> [] ->
    Split (API_Repository (config E)) "/" = owner :: repo :: rest ->
    RequireApproval (getSettings E) || IsSuspicious E c = false ->
    CreateFile_answer (client E) = None ->
    Filed E entry c n
      (Ok tt, mkHandlerState (filed_response E c)
                [Repositories_CreateFile owner repo pathname
                   (ToLower (TrimSpace (Body c))) (json_Marshal_RawComment E c) "master"]
                (S n))
| Filed_direct_failed (owner repo : string) (rest : list string) (pathname err : string) :
    threadRegexp_FindStringSubmatch (Thread entry) <> [] ->
    Split (API_Repository (config E)) "/" = owner :: repo :: rest ->
    RequireApproval (getSettings E) || IsSuspicious E c = false ->
    CreateFile_answer (client E) = Some err ->
    Filed E entry c n
      (Ok tt, mkHandlerState (json_error E ("Failed to write comment: " +:+ err) 500)
                [Repositories_CreateFile owner repo pathname
                   (ToLower (TrimSpace (Body c))) (json_Marshal_RawComment E c) "master"]
                (S n))
| Filed_nil_branch (owner repo : string) (rest : list string) (err : option string) :
    threadRegexp_FindStringSubmatch (Thread entry) <> [] ->
    Split (API_Repository (config E)) "/" = owner :: repo :: rest ->
    RequireApproval (getSettings E) || IsSuspicious E c = true ->
    GetBranch_answer (client E) = (None, err) ->
    Filed E entry c n
      (Panic "invalid memory address or nil pointer dereference",
       nothing_written (S n) [Repositories_GetBranch owner repo "master"])
| Filed_review_failed (owner repo : string) (rest : list string) (pathname : string)
    (master : Branch) (k : nat) (message : string) :
    threadRegexp_FindStringSubmatch (Thread entry) <> [] ->
    Split (API_Repository (config E)) "/" = owner :: repo :: rest ->
    RequireApproval (getSettings E) || IsSuspicious E c = true ->
    fst (GetBranch_answer (client E)) = Some master ->
    review_failure E k = Some message ->
    Filed E entry c n
      (Ok tt, mkHandlerState (json_error E message 500)
                (firstn k (review_calls owner repo pathname (json_Marshal_RawComment E c)
                             (ToLower (TrimSpace (Body c))) c master))
                (S n))
| Filed_reviewed (owner repo : string) (rest : list string) (pathname : string)
    (master : Branch) :
    threadRegexp_FindStringSubmatch (Thread entry) <> [] ->
    Split (API_Repository (config E)) "/" = owner :: repo :: rest ->
    RequireApproval (getSettings E) || IsSuspicious E c = true ->
    GetBranch_answer (client E) = (Some master, None) ->
    CreateRef_answer (client E) = None ->
    CreateFile_answer (client E) = None ->
    PullRequests_Create_answer (client E) = None ->
    Filed E entry c n
      (Ok tt, mkHandlerState (filed_response E c)
                (review_calls owner repo pathname (json_Marshal_RawComment E c)
                   (ToLower (TrimSpace (Body c))) c master)
                (S n)).

(** A deployment whose keyword list holds an empty entry. *)
Definition catch_all_settings : settings :=
  mkSettings ["10.0.0.9:4000"] ["spam@example.org"] ["casino"; ""] 1000 false.

Definition catch_all_env : Env :=
  demo_env_with catch_all_settings demo_client "2016-10-my-post".

(** ** The middleware and the routes of the API server *)

(** A value stored in a [context.Context]. *)
Inductive ContextValue : Type :=
| TimeValue (t : Z)
| StringValue (s : string).

(** [ctx.Value(key)] on a context built with [context.WithValue], the
    newest value first: nil is [None]. *)
Definition Context_Value (ctx : list (string * ContextValue)) (key : string)
  : option ContextValue :=
  match find (fun kv => String.eqb (fst kv) key) ctx with
  | Some kv => Some (snd kv)
  | None => None
  end.

Definition WithValue (ctx : list (string * ContextValue)) (key : string)
    (v : ContextValue) : list (string * ContextValue) :=
  (key, v) :: ctx.

(** [http.Error(w, error, code)] of net/http. *)
Definition http_Error (error : string) (code : Z) : M unit :=
  Header_Set "Content-Type" "text/plain; charset=utf-8" ;;
  Header_Set "X-Content-Type-Options" "nosniff" ;;
  WriteHeader code ;;
  Fprintln error.

(** The fields [logHandler] hands to the logger. *)
Record LogFields : Type := mkLogFields {
  log_method : string;
  log_path : string;
  log_status : Z;
  log_duration : Z
}.

(** [wp.Status()] of the writer proxy: the status written, or 0. *)
Definition Status : M Z := fun st => (Ok (default 0 (status (w st))), st).

Section Routes.

Context (E : Env).

(** [json.NewEncoder(w).Encode(obj)] for a map of strings. *)
Variable json_Encode_map : gmap string string -> string.

(** [func timeRequest(ctx, w, r) context.Context] *)
Definition timeRequest (ctx : list (string * ContextValue))
  : M (option (list (string * ContextValue))) :=
  now <- time_Now E ;;
  ret (Some (WithValue ctx "_gotell_timing" (TimeValue now))).

(** [func logHandler(ctx, wp, req)]: the type assertion panics on a missing
    value and on one that is not a time.  [req.Method] is passed beside the
    request. *)
Definition logHandler (ctx : list (string * ContextValue)) (method : string)
    (req : Request) : M LogFields :=
  match Context_Value ctx "_gotell_timing" with
  | Some (TimeValue start) =>
      code <- Status ;;
      now <- time_Now E ;;
      ret (mkLogFields method (Request_URL_Path req) code (Time_Sub now start))
  | _ => lift (Panic "interface conversion: interface {} is not time.Time")
  end.

(** [func jsonTypeRequired(ctx, w, r) context.Context]: nil is [None]. *)
Definition jsonTypeRequired (ctx : list (string * ContextValue)) (method : string)
    (r : Request) : M (option (list (string * ContextValue))) :=
  if String.eqb method "POST"
     && negb (String.eqb (Header_Get (Request_Header r) "Content-Type") "application/json")
  then http_Error "Content-Type must be application/json" 422 ;; ret None
  else ret (Some ctx).

(** [func sendJSON(w, status, obj)] *)
Definition sendJSON (code : Z) (obj : gmap string string) : M unit :=
  Header_Set "Content-Type" "application/json" ;;
  WriteHeader code ;;
  Write (json_Encode_map obj).

(** [func (s *Server) index(ctx, w, r)], for the server's [version]. *)
Definition index (version : string) : M unit :=
  sendJSON 200
    (<["version" := version]>
       (<["name" := "GoTell"]>
          (<["description" :=
               "GoTell is an API and build tool for handling large amounts of comments for JAMstack products"]>
             ∅))).

(** The chain [NewServerWithVersion] registers (lines 233 to 238): the two
    middlewares in the order of their [Use], then the handler; kami stops at
    a middleware that returns nil. *)
Definition through_middleware (method : string) (req : Request)
    (handler : M unit) : M unit :=
  timed <- timeRequest [] ;;
  match timed with
  | None => ret tt
  | Some ctx =>
      checked <- jsonTypeRequired ctx method req ;;
      match checked with
      | None => ret tt
      | Some _ => handler
      end
  end.

(** [mux.Post("/*path", s.postComment)] *)
Definition post_route (req : Request) : M unit :=
  through_middleware "POST" req (postComment E req).

(** [mux.Get("/", s.index)] *)
Definition index_route (version : string) (req : Request) : M unit :=
  through_middleware "GET" req (index version).

End Routes.

(** The refusal [jsonTypeRequired] writes. *)
Definition not_json_response : ResponseWriter :=
  mkResponseWriter
    (<["X-Content-Type-Options" := ["nosniff"]]>
       (<["Content-Type" := ["text/plain; charset=utf-8"]]> ∅))
    (Some 422) ("Content-Type must be application/json" +:+ String newline "").

(** The state in which the handler starts behind the middleware: the clock
    was read once. *)
Definition behind_middleware : HandlerState := mkHandlerState no_response [] 1.

(** A request without a content type. *)
Definition untyped_banned_request : Request :=
  mkRequest "/2016/10/my-post" "10.0.0.9:4000" ∅ "ann".

Definition typed_request : Request :=
  with_header demo_request {["Content-Type" := ["application/json"]]}.

Definition not_slash (c : ascii) : bool := negb (Ascii.eqb c "/").

(** A byte of the ASCII range.  On a string of such bytes [ToLower],
    [TrimSpace] and the patterns above do exactly what Go's do. *)
Definition is_ascii (c : ascii) : bool := (N_of_ascii c <? 128)%N.

(** The path of the comment file (lines 105 to 109): the source directory of
    the threads, the directory of the thread, and the file name made of the
    clock reading [now] in milliseconds and the name. *)
Definition comment_path (E : Env) (dir : string) (now : Z) (name : string) : string :=
  path_Join E [Threads_Source (config E); dir;
               pretty (Z.quot now 1000000) +:+ "-" +:+ name +:+ ".json"].

(** ** Facts about the string functions *)

Lemma HasPrefix_spec s p : HasPrefix s p = true <-> exists r, s = p +:+ r.
Proof.
  revert s; induction p as [|c p IH]; intros s; simpl.
  - split; [intros _; now exists s | reflexivity].
  - destruct s as [|d s].
    + split; [discriminate | intros [r Hr]; discriminate].
    + rewrite andb_true_iff, IH. split.
      * intros [Hc [r ->]]. apply Ascii.eqb_eq in Hc. subst. now exists r.
      * intros [r Hr]. injection Hr as -> ->. split; [apply Ascii.eqb_refl | now exists r].
Qed.

Lemma Index_range s sub : Index s sub = -1 \/ 0 <= Index s sub.
Proof.
  induction s as [|c s IH]; simpl.
  - destruct (HasPrefix "" sub); lia.
  - destruct (HasPrefix (String c s) sub); [lia|].
    destruct (Index s sub <? 0) eqn:H; lia.
Qed.

Lemma Contains_spec s sub : Contains s sub = true <-> substring_of sub s.
Proof.
  unfold Contains, substring_of.
  induction s as [|c s IH]; simpl.
  - destruct (HasPrefix "" sub) eqn:Hp.
    + apply HasPrefix_spec in Hp as [r Hr]. split; [|reflexivity].
      intros _. now exists "", r.
    + split; [discriminate|]. intros (pre & post & H).
      destruct pre; [|discriminate]. simpl in H.
      assert (HasPrefix "" sub = true) by (apply HasPrefix_spec; eauto).
      congruence.
  - destruct (HasPrefix (String c s) sub) eqn:Hp.
    + apply HasPrefix_spec in Hp as [r Hr]. split; [|reflexivity].
      intros _. now exists "", r.
    + destruct (Index_range s sub) as [Hi|Hi].
      * rewrite Hi in *. simpl. split; [discriminate|].
        intros (pre & post & H). destruct pre as [|d pre]; simpl in H.
        -- assert (HasPrefix (String c s) sub = true)
             by (apply HasPrefix_spec; eauto). congruence.
        -- injection H as -> ->.
           assert (substr : exists pre0 post0, pre +:+ sub +:+ post = pre0 +:+ sub +:+ post0)
             by eauto.
           apply IH in substr. discriminate.
      * destruct (Index s sub <? 0) eqn:Hlt; [lia|].
        split; [|intros _; apply Z.leb_le; lia].
        intros _. assert (Hc : (0 <=? Index s sub) = true) by (apply Z.leb_le; lia).
        apply IH in Hc as (pre & post & ->). now exists (String c pre), post.
Qed.

Lemma mentions_spec comment banned :
  mentions comment banned = true <-> Mentions comment banned.
Proof.
  unfold mentions, Mentions.
  rewrite !orb_true_iff, !Contains_spec. tauto.
Qed.

(** ** Running the handler *)

Ltac run :=
  cbv [serve postComment file_comment bind ret lift Header_Set Header_Add
       Fprintln Write WriteHeader modify_w store time_Now jsonError respond
       start no_response after_gates w calls ticks header status body].

Lemma json_header_fresh : (∅ : gmap string (list string)) !! "X-Banned" = None
  /\ json_header !! "X-Banned" = None.
Proof. split; reflexivity. Qed.

Lemma banned_ip_test (st : settings) (req : Request) :
  existsb (fun ip => String.eqb (Request_RemoteAddr req) ip) (BannedIPs st) = true
  <-> In (Request_RemoteAddr req) (BannedIPs st).
Proof.
  rewrite existsb_exists. split.
  - intros (ip & Hin & Heq). apply String.eqb_eq in Heq. now subst.
  - intros Hin. exists (Request_RemoteAddr req). split; [easy | apply String.eqb_refl].
Qed.

Lemma mention_test (st : list string) (comment : RawComment) :
  existsb (mentions comment) st = true <-> exists b, In b st /\ Mentions comment b.
Proof.
  rewrite existsb_exists. split; intros (b & Hin & Hm); exists b;
    (split; [easy | now apply mentions_spec]).
Qed.

Lemma mention_test_false (st : list string) (comment : RawComment) :
  (forall b, In b st -> ~ Mentions comment b) -> existsb (mentions comment) st = false.
Proof.
  intros H. destruct (existsb (mentions comment) st) eqn:Hex; [|reflexivity].
  apply mention_test in Hex as (b & Hin & Hm). now destruct (H b Hin).
Qed.

(** A request from a banned address is answered before anything else is
    looked at. *)
Lemma serve_banned_ip (E : Env) (req : Request) :
  In (Request_RemoteAddr req) (BannedIPs (getSettings E)) ->
  serve E req = (Ok tt, mkHandlerState (silent_ban "IP-Banned") [] 0).
Proof.
  intros Hin. apply banned_ip_test in Hin.
  run. rewrite Hin. run.
  change (<["Content-Type":=["application/json"]]> ∅) with json_header.
  rewrite (proj2 json_header_fresh). reflexivity.
Qed.

Lemma banned_ip_test_false (st : settings) (req : Request) :
  ~ In (Request_RemoteAddr req) (BannedIPs st) ->
  existsb (fun ip => String.eqb (Request_RemoteAddr req) ip) (BannedIPs st) = false.
Proof.
  intros H. destruct (existsb _ _) eqn:Hex; [|reflexivity].
  apply banned_ip_test in Hex. contradiction.
Qed.

(** A decoded request arrives at the two ban loops with nothing written. *)
Lemma serve_decoded (E : Env) (req : Request) (entry : EntryData) (comment : RawComment) :
  decoded E req entry comment ->
  serve E req =
    (if existsb (mentions comment) (BannedEmails (getSettings E))
     then Header_Add "X-Banned" "Email-Banned" ;; Fprintln "{}"
     else if existsb (mentions comment) (BannedKeywords (getSettings E))
     then Header_Add "X-Banned" "Keyword-Banned" ;; Fprintln "{}"
     else file_comment E req (getSettings E) entry comment) (after_gates E).
Proof.
  intros (Hip & Hentry & Hopen & Hdec).
  apply banned_ip_test_false in Hip.
  unfold serve, postComment, after_gates.
  cbv [bind Header_Set modify_w start no_response w calls ticks header status body].
  rewrite Hip, Hentry.
  destruct (TimeLimit (getSettings E) =? 0) eqn:Hlim; cbn [negb].
  - cbv [ret]. rewrite Hdec. reflexivity.
  - cbv [bind ret time_Now ticks w calls].
    destruct Hopen as [H0|Hle]; [apply Z.eqb_neq in Hlim; contradiction|].
    apply Z.ltb_ge in Hle. rewrite Hle, Hdec. reflexivity.
Qed.

Lemma silent_ban_written (category : string) (n : nat) :
  (Header_Add "X-Banned" category ;; Fprintln "{}")
    (mkHandlerState (mkResponseWriter json_header None "") [] n)
  = (Ok tt, mkHandlerState (silent_ban category) [] n).
Proof. run. rewrite (proj2 json_header_fresh). reflexivity. Qed.

Lemma serve_email_banned (E : Env) (req : Request) (entry : EntryData) (comment : RawComment) :
  decoded E req entry comment ->
  (exists b, In b (BannedEmails (getSettings E)) /\ Mentions comment b) ->
  serve E req =
    (Ok tt, mkHandlerState (silent_ban "Email-Banned") [] (ticks (after_gates E))).
Proof.
  intros Hd Hb. rewrite (serve_decoded E req entry comment Hd).
  apply mention_test in Hb. rewrite Hb. apply silent_ban_written.
Qed.

Lemma serve_keyword_banned (E : Env) (req : Request) (entry : EntryData) (comment : RawComment) :
  decoded E req entry comment ->
  (forall b, In b (BannedEmails (getSettings E)) -> ~ Mentions comment b) ->
  (exists b, In b (BannedKeywords (getSettings E)) /\ Mentions comment b) ->
  serve E req =
    (Ok tt, mkHandlerState (silent_ban "Keyword-Banned") [] (ticks (after_gates E))).
Proof.
  intros Hd He Hb. rewrite (serve_decoded E req entry comment Hd).
  rewrite (mention_test_false _ _ He).
  apply mention_test in Hb. rewrite Hb. apply silent_ban_written.
Qed.

Lemma serve_reaches (E : Env) (req : Request) (entry : EntryData) (comment : RawComment) :
  reaches_verification E req entry comment ->
  serve E req = file_comment E req (getSettings E) entry comment (after_gates E).
Proof.
  intros (Hd & He & Hk). rewrite (serve_decoded E req entry comment Hd).
  now rewrite (mention_test_false _ _ He), (mention_test_false _ _ Hk).
Qed.

(** ** The address gate comes first *)

(** C10: the banned-address test precedes thread resolution, the time limit
    and body decoding.  Two requests from banned addresses get the same
    answer whatever their paths and bodies, whatever the thread state and
    whatever the deployment resolves or decodes: status 200, the body [{}],
    the marker [IP-Banned]; no store call is made and the clock is not
    read. *)
Theorem banned_source_observes_nothing (E1 E2 : Env) (req1 req2 : Request) :
  In (Request_RemoteAddr req1) (BannedIPs (getSettings E1)) ->
  In (Request_RemoteAddr req2) (BannedIPs (getSettings E2)) ->
  serve E1 req1 = serve E2 req2
  /\ fst (serve E1 req1) = Ok tt
  /\ w (snd (serve E1 req1)) = silent_ban "IP-Banned"
  /\ calls (snd (serve E1 req1)) = []
  /\ ticks (snd (serve E1 req1)) = 0%nat.
Proof.
  intros H1 H2.
  rewrite (serve_banned_ip E1 req1 H1), (serve_banned_ip E2 req2 H2).
  repeat split.
Qed.

Lemma banned_source_observes_nothing_witness :
  serve demo_env banned_request = serve closed_env banned_request_to_thread
  /\ fst (serve demo_env banned_request) = Ok tt
  /\ w (snd (serve demo_env banned_request)) = silent_ban "IP-Banned"
  /\ calls (snd (serve demo_env banned_request)) = []
  /\ ticks (snd (serve demo_env banned_request)) = 0%nat.
Proof.
  apply (banned_source_observes_nothing demo_env closed_env
           banned_request banned_request_to_thread);
    simpl; left; reflexivity.
Defined.

(** ** Silent rejection *)

(** C3: a request whose source address equals a banned address, and a
    decoded comment whose email, body or URL contains a banned email or a
    banned keyword, are answered with status 200, the body [{}] (and the
    line feed [Fprintln] adds) and an [X-Banned] header naming the category,
    [Email-Banned] when a banned email is found and [Keyword-Banned]
    otherwise; the content store is not called. *)
Theorem ban_match_is_silent (E : Env) (req : Request) :
  (In (Request_RemoteAddr req) (BannedIPs (getSettings E)) ->
   fst (serve E req) = Ok tt
   /\ w (snd (serve E req)) = silent_ban "IP-Banned"
   /\ calls (snd (serve E req)) = [])
  /\ (forall entry comment,
        decoded E req entry comment ->
        (exists b, (In b (BannedEmails (getSettings E))
                    \/ In b (BannedKeywords (getSettings E)))
                   /\ Mentions comment b) ->
        exists category,
          ((exists b, In b (BannedEmails (getSettings E)) /\ Mentions comment b)
             /\ category = "Email-Banned"
           \/ (forall b, In b (BannedEmails (getSettings E)) -> ~ Mentions comment b)
             /\ category = "Keyword-Banned")
          /\ fst (serve E req) = Ok tt
          /\ w (snd (serve E req)) = silent_ban category
          /\ calls (snd (serve E req)) = []).
Proof.
  split.
  - intros Hin. rewrite (serve_banned_ip E req Hin). repeat split.
  - intros entry comment Hd (b & Hin & Hm).
    destruct (existsb (mentions comment) (BannedEmails (getSettings E))) eqn:Hex.
    + apply mention_test in Hex. exists "Email-Banned".
      rewrite (serve_email_banned E req entry comment Hd Hex).
      split; [left; split; [exact Hex | reflexivity] | repeat split].
    + assert (Hno : forall b0, In b0 (BannedEmails (getSettings E)) -> ~ Mentions comment b0).
      { intros b0 Hb0 Hm0.
        assert (Ht : existsb (mentions comment) (BannedEmails (getSettings E)) = true)
          by (apply mention_test; eauto).
        congruence. }
      destruct Hin as [Hin|Hin]; [now destruct (Hno b Hin)|].
      exists "Keyword-Banned".
      rewrite (serve_keyword_banned E req entry comment Hd Hno
                 (ex_intro _ b (conj Hin Hm))).
      split; [right; split; [exact Hno | reflexivity] | repeat split].
Qed.

Lemma ban_match_is_silent_witness :
  (fst (serve demo_env banned_request) = Ok tt
   /\ w (snd (serve demo_env banned_request)) = silent_ban "IP-Banned"
   /\ calls (snd (serve demo_env banned_request)) = [])
  /\ exists category,
       ((exists b, In b (BannedEmails (getSettings demo_env)) /\ Mentions spam_comment b)
          /\ category = "Email-Banned"
        \/ (forall b, In b (BannedEmails (getSettings demo_env)) -> ~ Mentions spam_comment b)
          /\ category = "Keyword-Banned")
       /\ fst (serve demo_env spam_request) = Ok tt
       /\ w (snd (serve demo_env spam_request)) = silent_ban category
       /\ calls (snd (serve demo_env spam_request)) = [].
Proof.
  split.
  - apply (proj1 (ban_match_is_silent demo_env banned_request)).
    simpl; left; reflexivity.
  - apply (proj2 (ban_match_is_silent demo_env spam_request) demo_entry spam_comment).
    + repeat split.
      * simpl. intros [H|[]]. discriminate H.
      * right. vm_compute. discriminate.
    + exists "casino". split; [right; simpl; left; reflexivity|].
      apply mentions_spec. vm_compute. reflexivity.
Defined.

(** ** The time limit *)

Lemma serve_closed (E : Env) (req : Request) (entry : EntryData) :
  ~ In (Request_RemoteAddr req) (BannedIPs (getSettings E)) ->
  entryData E (Request_URL_Path req) = Val entry ->
  TimeLimit (getSettings E) <> 0 ->
  TimeLimit (getSettings E) < Time_Sub (clock E 0) (CreatedAt entry) ->
  serve E req =
    (Ok tt, mkHandlerState (json_error E "Thread is closed for new comments" 401) [] 1).
Proof.
  intros Hip Hentry Hlim Hold.
  apply banned_ip_test_false in Hip.
  apply Z.eqb_neq in Hlim. apply Z.ltb_lt in Hold.
  unfold serve, postComment.
  cbv [bind Header_Set modify_w start no_response w calls ticks header status body].
  rewrite Hip, Hentry, Hlim. cbn [negb].
  cbv [bind ret time_Now ticks w calls]. rewrite Hold.
  reflexivity.
Qed.

Ltac destruct_head :=
  match goal with
  | |- context [match ?x with _ => _ end] =>
      lazymatch x with
      | context [match _ with _ => _ end] => fail
      | _ => destruct x eqn:?
      end
  end.

Ltac run_all :=
  cbv [serve postComment file_comment file_stamped reviewed direct index_
       bind ret lift Header_Set Header_Add
       Fprintln Write WriteHeader modify_w store time_Now jsonError respond
       start no_response after_gates w calls ticks header status body].

(** Whatever happens after the time-limit test, status 401 is not written. *)
Lemma file_comment_status (E : Env) (req : Request) (entry : EntryData)
    (comment : RawComment) (st : HandlerState) :
  status (w st) = None ->
  status (w (snd (file_comment E req (getSettings E) entry comment st))) <> Some 401.
Proof.
  destruct st as [[h s b] c t]. cbn [w status]. intros ->.
  run_all.
  repeat (destruct_head; run_all; cbn [snd]; try discriminate).
Qed.

Lemma no_limit_never_closes (E : Env) (req : Request) :
  TimeLimit (getSettings E) = 0 ->
  status (w (snd (serve E req))) <> Some 401.
Proof.
  intros Hlim. unfold serve, postComment.
  cbv [bind Header_Set modify_w start no_response w calls ticks header status body].
  destruct (existsb _ (BannedIPs (getSettings E))).
  { run_all. cbn [snd]. discriminate. }
  destruct (entryData E (Request_URL_Path req)) as [entry|err].
  2:{ run_all. cbn [snd]. discriminate. }
  rewrite Hlim. cbn [Z.eqb negb]. cbv [ret].
  destruct (json_Decode E (Request_Body req)) as [comment|err].
  2:{ run_all. cbn [snd]. discriminate. }
  destruct (existsb (mentions comment) (BannedEmails (getSettings E))).
  { run_all. cbn [snd]. discriminate. }
  destruct (existsb (mentions comment) (BannedKeywords (getSettings E))).
  { run_all. cbn [snd]. discriminate. }
  now apply file_comment_status.
Qed.

(** C5, as amended: a submission from an address that is not banned, to a
    thread that resolves and whose age exceeds a time limit other than zero,
    gets status 401 with the message that the thread is closed, and no store
    call is made; with a time limit of zero no request gets status 401. *)
Theorem closed_thread_is_rejected (E : Env) (req : Request) :
  (forall entry,
     ~ In (Request_RemoteAddr req) (BannedIPs (getSettings E)) ->
     entryData E (Request_URL_Path req) = Val entry ->
     TimeLimit (getSettings E) <> 0 ->
     TimeLimit (getSettings E) < Time_Sub (clock E 0) (CreatedAt entry) ->
     fst (serve E req) = Ok tt
     /\ w (snd (serve E req)) = json_error E "Thread is closed for new comments" 401
     /\ calls (snd (serve E req)) = [])
  /\ (TimeLimit (getSettings E) = 0 ->
      status (w (snd (serve E req))) <> Some 401).
Proof.
  split.
  - intros entry Hip Hentry Hlim Hold.
    rewrite (serve_closed E req entry Hip Hentry Hlim Hold). repeat split.
  - apply no_limit_never_closes.
Qed.

Lemma closed_thread_is_rejected_witness :
  (fst (serve closed_env demo_request) = Ok tt
   /\ w (snd (serve closed_env demo_request))
      = json_error closed_env "Thread is closed for new comments" 401
   /\ calls (snd (serve closed_env demo_request)) = [])
  /\ status (w (snd (serve unlimited_env demo_request))) <> Some 401.
Proof.
  split.
  - apply (proj1 (closed_thread_is_rejected closed_env demo_request) demo_entry).
    + simpl. intros [H|[]]. discriminate H.
    + reflexivity.
    + vm_compute. discriminate.
    + vm_compute. reflexivity.
  - apply (proj2 (closed_thread_is_rejected unlimited_env demo_request)).
    reflexivity.
Defined.

(** C5 as stated fails where the address gate answers first: a banned
    address writing to a thread that has outlived the time limit gets the
    silent 200, not the 401. *)
Lemma closed_thread_banned_source :
  entryData closed_env (Request_URL_Path banned_request_to_thread) = Val demo_entry
  /\ TimeLimit (getSettings closed_env) <> 0
  /\ TimeLimit (getSettings closed_env)
     < Time_Sub (clock closed_env 0) (CreatedAt demo_entry)
  /\ status (w (snd (serve closed_env banned_request_to_thread))) = Some 200
  /\ w (snd (serve closed_env banned_request_to_thread))
     <> json_error closed_env "Thread is closed for new comments" 401.
Proof.
  assert (Hs : serve closed_env banned_request_to_thread
               = (Ok tt, mkHandlerState (silent_ban "IP-Banned") [] 0)).
  { apply serve_banned_ip. simpl. left. reflexivity. }
  rewrite Hs. cbn [snd w].
  repeat split; try (vm_compute; discriminate).
Qed.

(** ** The slug *)

Lemma substring_whole (s : string) : String.substring 0 (String.length s) s = s.
Proof. induction s as [|c s IH]; simpl; [reflexivity | now rewrite IH]. Qed.

Lemma len_nonneg (s : string) : 0 <= len_ s.
Proof. unfold len_. lia. Qed.

Lemma slice_whole (s : string) : slice s 0 (len_ s) = Ok s.
Proof.
  unfold slice. pose proof (len_nonneg s) as H.
  replace ((0 <=? 0) && (0 <=? len_ s) && (len_ s <=? len_ s)) with true
    by (symmetry; rewrite !andb_true_iff, !Z.leb_le; lia).
  unfold len_. rewrite Z.sub_0_r, Nat2Z.id. simpl. now rewrite substring_whole.
Qed.

(** With [n = 1], [SplitAfterN] cuts nothing off. *)
Lemma SplitAfterN_one (s sep : string) : SplitAfterN s sep 1 = [s].
Proof.
  unfold SplitAfterN, genSplit. cbn [Z.eqb Z.ltb Z.compare].
  pose proof (len_nonneg s) as H.
  destruct (len_ s + 1 <? 1) eqn:Hlt; [apply Z.ltb_lt in Hlt; lia|].
  reflexivity.
Qed.

(** So the first paragraph is the whole body, trimmed and in lower case. *)
Lemma firstParagraph_is_body (b : string) :
  firstParagraph_of b = Ok (ToLower (TrimSpace b)).
Proof.
  unfold firstParagraph_of. rewrite slice_whole, SplitAfterN_one. reflexivity.
Qed.

Lemma Min_clamps (s : string) : 0 <= Min 50 (len_ s) <= len_ s.
Proof.
  unfold Min. pose proof (len_nonneg s).
  destruct (50 <? len_ s) eqn:H50; [apply Z.ltb_lt in H50 | apply Z.ltb_ge in H50]; lia.
Qed.

Lemma name_of_total (fp : string) :
  name_of fp =
    Ok (squeeze_ReplaceAllString
          (Trim (slugify_ReplaceAllString
                   (String.substring 0 (Z.to_nat (Min 50 (len_ fp))) fp) "-") "-") "-").
Proof.
  unfold name_of, slice. pose proof (Min_clamps fp) as H.
  replace ((0 <=? 0) && (0 <=? Min 50 (len_ fp)) && (Min 50 (len_ fp) <=? len_ fp))
    with true by (symmetry; rewrite !andb_true_iff, !Z.leb_le; lia).
  now rewrite Z.sub_0_r.
Qed.

(** C8: the slug is computed for every body without an indexing or slicing
    failure: the body is sliced at its own length, element 0 of the split
    exists, and the bound of the truncation is the smaller of 50 and the
    length, so it is the length itself for the empty body and any body
    shorter than 50 bytes.  None of this depends on what lower-casing and
    trimming return. *)
Theorem slug_never_panics :
  (forall b : string, exists name, slug b = Ok name)
  /\ slug "" = Ok ""
  /\ (forall b : string, slice b 0 (len_ b) = Ok b)
  /\ (forall l sep : string, index_ (SplitAfterN l sep 1) 0 = Ok l)
  /\ (forall fp : string,
        Min 50 (len_ fp) = Z.min 50 (len_ fp)
        /\ 0 <= Min 50 (len_ fp) <= len_ fp
        /\ (exists cut, slice fp 0 (Min 50 (len_ fp)) = Ok cut)
        /\ exists name, name_of fp = Ok name).
Proof.
  split; [|split; [|split; [|split]]].
  - intros b. unfold slug. rewrite firstParagraph_is_body, name_of_total. eauto.
  - reflexivity.
  - apply slice_whole.
  - intros l sep. now rewrite SplitAfterN_one.
  - intros fp. pose proof (Min_clamps fp) as H.
    split; [|split; [exact H|split]].
    + unfold Min. destruct (50 <? len_ fp) eqn:H50;
        [apply Z.ltb_lt in H50 | apply Z.ltb_ge in H50]; lia.
    + unfold slice.
      replace ((0 <=? 0) && (0 <=? Min 50 (len_ fp)) && (Min 50 (len_ fp) <=? len_ fp))
        with true by (symmetry; rewrite !andb_true_iff, !Z.leb_le; lia).
      eauto.
    + rewrite name_of_total. eauto.
Qed.

(** C4, on the code: for the body [Hello, World!] followed by a line feed
    and [more text], the name is [hello-world-more-text]: the line feed and
    the second line are part of it. *)
Theorem slug_keeps_second_line :
  firstParagraph_of hello_body = Ok (ToLower hello_body)
  /\ slug hello_body = Ok "hello-world-more-text"
  /\ slug hello_body <> Ok "hello-world".
Proof.
  split; [|split]; [reflexivity | reflexivity | vm_compute; discriminate].
Qed.

(** ** Two places where the handler panics *)

(** C7, on the code: for a thread identifier the pattern does not match
    ([hello]), [FindStringSubmatch] returns nil and [matches[1]] panics; the
    handler writes no status and no body, so no malformed-thread error is
    returned.  No store call is made. *)
Theorem unmatched_thread_panics :
  threadRegexp_FindStringSubmatch (Thread (mkEntryData "hello" 500)) = []
  /\ serve malformed_thread_env demo_request
     = (Panic "index out of range", nothing_written 3 []).
Proof. split; vm_compute; reflexivity. Qed.

(** C2, on the code: when the head of the published branch cannot be
    resolved, [master] is nil and [master.Commit] is read before [err] is
    tested: the handler panics after the one [GetBranch] call and writes no
    status and no body, so no 500 error is returned. *)
Theorem head_failure_panics :
  GetBranch_answer (client head_failure_env)
    = (None, Some "GET branches/master: 404 Not Found")
  /\ serve head_failure_env demo_request
     = (Panic "invalid memory address or nil pointer dereference",
        nothing_written 4 [Repositories_GetBranch "netlify" "gotell" "master"]).
Proof. split; vm_compute; reflexivity. Qed.

(** ** Verification and the thread pattern never stop a request by themselves *)

Lemma verify_total (E : Env) (email : string) (r : Request) :
  exists b, verify E email r = Ok b.
Proof.
  unfold verify.
  destruct (String.eqb _ ""); [eauto|].
  destruct (bearerRegexp_FindStringSubmatch _) as [|m0 [|m1 [|m2 ms]]];
    cbn [List.length Nat.eqb negb index_ nth_error]; eauto.
  destruct (jwt_Parse E m1 (verify_keyFunc E)) as [token|err]; [|eauto].
  destruct (Valid token); [|eauto].
  destruct (Claims token !! "email") as [[]|]; eauto.
Qed.

Lemma threadRegexp_match_here_shape (s : string) (m : list string) :
  threadRegexp_match_here s = Some m ->
  exists g1 g2 g3, m = [g1 +:+ "-" +:+ g2 +:+ "-" +:+ g3; g1; g2; g3].
Proof.
  unfold threadRegexp_match_here.
  repeat (destruct_head; try discriminate).
  intros [= <-]. eauto.
Qed.

Lemma threadRegexp_shape (s : string) :
  threadRegexp_FindStringSubmatch s = []
  \/ exists g1 g2 g3,
       threadRegexp_FindStringSubmatch s = [g1 +:+ "-" +:+ g2 +:+ "-" +:+ g3; g1; g2; g3].
Proof.
  induction s as [|c s IH]; cbn [threadRegexp_FindStringSubmatch].
  - destruct (threadRegexp_match_here "") eqn:H; [|now left].
    right. now apply threadRegexp_match_here_shape in H.
  - destruct (threadRegexp_match_here (String c s)) eqn:H; [|exact IH].
    right. now apply threadRegexp_match_here_shape in H.
Qed.

(** ** The two ways of filing a comment *)

(** A request that passes the gates files the stamped comment, with two
    more clock readings taken and nothing written yet. *)
Lemma serve_stamped (E : Env) (req : Request) (entry : EntryData) (comment : RawComment) :
  reaches_verification E req entry comment ->
  exists verified,
    verify E (Email comment) req = Ok verified
    /\ serve E req =
         file_stamped E (getSettings E) entry (stamped E req comment verified)
           (nothing_written (S (S (ticks (after_gates E)))) []).
Proof.
  intros Hr. destruct (verify_total E (Email comment) req) as [v Hv].
  exists v. split; [exact Hv|].
  rewrite (serve_reaches E req entry comment Hr).
  unfold file_comment, stamped, nothing_written.
  cbv [bind time_Now lift after_gates w calls ticks]. rewrite Hv. reflexivity.
Qed.

(** The path of the comment file (lines 105 to 109), for the third group
    list of the thread pattern and the clock reading [now]. *)
Lemma file_stamped_run (E : Env) (entry : EntryData) (c : RawComment)
    (m0 m1 m2 m3 : string) (n : nat) :
  threadRegexp_FindStringSubmatch (Thread entry) = [m0; m1; m2; m3] ->
  exists pathname,
    file_stamped E (getSettings E) entry c (nothing_written n [])
    = (if RequireApproval (getSettings E) || IsSuspicious E c
       then reviewed E (Split (API_Repository (config E)) "/") pathname
              (json_Marshal_RawComment E c) (ToLower (TrimSpace (Body c))) c
       else direct E (Split (API_Repository (config E)) "/") pathname
              (json_Marshal_RawComment E c) (ToLower (TrimSpace (Body c))) c)
        (nothing_written (S n) []).
Proof.
  intros Hm. unfold file_stamped. rewrite Hm, firstParagraph_is_body.
  cbv [bind lift index_ nth_error]. rewrite name_of_total.
  eexists. cbv [time_Now nothing_written w calls ticks].
  reflexivity.
Qed.

Lemma direct_run (E : Env) (owner repo : string) (rest : list string)
    (pathname content message : string) (c : RawComment) (n : nat) :
  calls (snd (direct E (owner :: repo :: rest) pathname content message c
                (nothing_written n [])))
  = [Repositories_CreateFile owner repo pathname message content "master"].
Proof.
  unfold direct. run_all. destruct (CreateFile_answer (client E)); reflexivity.
Qed.



Lemma demo_reaches_verification (st : settings) (cl : Client) :
  BannedIPs st = ["10.0.0.9:4000"] ->
  BannedEmails st = ["spam@example.org"] ->
  BannedKeywords st = ["casino"] ->
  TimeLimit st = 1000 \/ TimeLimit st = 0 ->
  reaches_verification (demo_env_with st cl "2016-10-my-post") demo_request
    demo_entry demo_comment.
Proof.
  intros Hip He Hk Hl. unfold reaches_verification, decoded, thread_open.
  cbn [getSettings demo_env_with entryData json_Decode clock].
  rewrite Hip, He, Hk.
  repeat split.
  - simpl. intros [H|[]]. discriminate H.
  - destruct Hl as [-> | ->]; [right; vm_compute; discriminate | now left].
  - intros b [<-|[]] Hm. apply mentions_spec in Hm. vm_compute in Hm. discriminate.
  - intros b [<-|[]] Hm. apply mentions_spec in Hm. vm_compute in Hm. discriminate.
Qed.





(** ** Verification only sets a flag *)

(** Filing the same comment with one or the other verification outcome ends
    the same way, with the same status and the same store calls but for the
    file content, which is the marshalled comment carrying its own flag. *)
Lemma file_stamped_flag (E : Env) (entry : EntryData) (c : RawComment)
    (v1 v2 : bool) (n : nat) :
  (forall c v, IsSuspicious E (set_Verified c v) = IsSuspicious E c) ->
  let r1 := file_stamped E (getSettings E) entry (set_Verified c v1) (nothing_written n []) in
  let r2 := file_stamped E (getSettings E) entry (set_Verified c v2) (nothing_written n []) in
  fst r1 = fst r2
  /\ status (w (snd r1)) = status (w (snd r2))
  /\ map without_content (calls (snd r1)) = map without_content (calls (snd r2))
  /\ Forall (writes (json_Marshal_RawComment E (set_Verified c v1))) (calls (snd r1))
  /\ Forall (writes (json_Marshal_RawComment E (set_Verified c v2))) (calls (snd r2)).
Proof.
  intros Hs. cbv zeta. unfold file_stamped, reviewed, direct.
  rewrite !Hs. cbn [Body ID set_Verified].
  run_all. cbv [nothing_written].
  repeat (cbn [fst snd]; run_all; destruct_head);
    cbn [fst snd]; run_all; cbn [map without_content app];
    repeat split; repeat constructor.
Qed.

(** With a thread the pattern matches, a repository [owner/repo] and a store
    that answers every call, the comment is written and the status is 200. *)
Lemma file_stamped_persists (E : Env) (entry : EntryData) (c : RawComment)
    (owner repo : string) (rest : list string) (master : Branch) (n : nat) :
  threadRegexp_FindStringSubmatch (Thread entry) <> [] ->
  Split (API_Repository (config E)) "/" = owner :: repo :: rest ->
  GetBranch_answer (client E) = (Some master, None) ->
  CreateRef_answer (client E) = None ->
  CreateFile_answer (client E) = None ->
  PullRequests_Create_answer (client E) = None ->
  let r := file_stamped E (getSettings E) entry c (nothing_written n []) in
  fst r = Ok tt
  /\ status (w (snd r)) = Some 200
  /\ exists pathname message branch,
       In (Repositories_CreateFile owner repo pathname message
             (json_Marshal_RawComment E c) branch) (calls (snd r)).
Proof.
  intros Hm Hsplit Hb Hr Hf Hp. cbv zeta.
  destruct (threadRegexp_shape (Thread entry)) as [Hnil | (g1 & g2 & g3 & Hg)];
    [contradiction|].
  destruct (file_stamped_run E entry c _ _ _ _ n Hg) as (pathname & ->).
  rewrite Hsplit.
  destruct (RequireApproval (getSettings E) || IsSuspicious E c).
  - unfold reviewed. run_all. rewrite Hb. run_all. rewrite Hr. run_all.
    rewrite Hf. run_all. rewrite Hp. run_all. cbn [fst snd app].
    repeat split. do 3 eexists. right; right; left. reflexivity.
  - unfold direct. run_all. rewrite Hf. run_all. cbn [fst snd app].
    repeat split. do 3 eexists. left. reflexivity.
Qed.

(** C9: verification cannot fail a request.  [verify] always returns a
    boolean.  For a request that reaches the verification step, replacing
    its headers (hence the outcome of verification) changes neither how the
    handler ends, nor the status, nor the store calls made, except for the
    file content, which is the marshalled comment with the outcome as its
    [Verified] field.  And when the thread and the repository are well
    formed and the store answers every call, the comment is written and the
    status is 200 whatever the outcome.  It is assumed that the suspicion
    heuristic [IsSuspicious], of package [comments], does not read
    [Verified]. *)
Theorem verification_sets_only_the_flag (E : Env) (req : Request)
    (h : gmap string (list string)) (entry : EntryData) (comment : RawComment) :
  (forall c v, IsSuspicious E (set_Verified c v) = IsSuspicious E c) ->
  reaches_verification E req entry comment ->
  exists v1 v2,
    verify E (Email comment) req = Ok v1
    /\ verify E (Email comment) (with_header req h) = Ok v2
    /\ let r1 := serve E req in
       let r2 := serve E (with_header req h) in
       let c1 := stamped E req comment v1 in
       let c2 := stamped E req comment v2 in
       Verified c1 = v1 /\ Verified c2 = v2 /\ c2 = set_Verified c1 v2
       /\ fst r1 = fst r2
       /\ status (w (snd r1)) = status (w (snd r2))
       /\ map without_content (calls (snd r1)) = map without_content (calls (snd r2))
       /\ Forall (writes (json_Marshal_RawComment E c1)) (calls (snd r1))
       /\ Forall (writes (json_Marshal_RawComment E c2)) (calls (snd r2))
       /\ (forall owner repo rest master,
             threadRegexp_FindStringSubmatch (Thread entry) <> [] ->
             Split (API_Repository (config E)) "/" = owner :: repo :: rest ->
             GetBranch_answer (client E) = (Some master, None) ->
             CreateRef_answer (client E) = None ->
             CreateFile_answer (client E) = None ->
             PullRequests_Create_answer (client E) = None ->
             fst r1 = Ok tt
             /\ status (w (snd r1)) = Some 200
             /\ exists pathname message branch,
                  In (Repositories_CreateFile owner repo pathname message
                        (json_Marshal_RawComment E c1) branch) (calls (snd r1))).
Proof.
  intros Hsusp Hr.
  assert (Hr' : reaches_verification E (with_header req h) entry comment) by exact Hr.
  destruct (serve_stamped E req entry comment Hr) as (v1 & Hv1 & Hs1).
  destruct (serve_stamped E (with_header req h) entry comment Hr') as (v2 & Hv2 & Hs2).
  exists v1, v2. split; [exact Hv1|]. split; [exact Hv2|]. cbv zeta.
  rewrite Hs1, Hs2.
  change (stamped E (with_header req h) comment v2) with (stamped E req comment v2).
  pose proof (file_stamped_flag E entry (stamped E req comment false) v1 v2
                (S (S (ticks (after_gates E)))) Hsusp) as Hflag.
  cbv zeta in Hflag.
  change (set_Verified (stamped E req comment false) v1)
    with (stamped E req comment v1) in Hflag.
  change (set_Verified (stamped E req comment false) v2)
    with (stamped E req comment v2) in Hflag.
  destruct Hflag as (Hfst & Hstatus & Hcalls & Hw1 & Hw2).
  repeat (split; [first [reflexivity | assumption]|]).
  intros owner repo rest master Hm Hsplit Hb Hc Hf Hp.
  exact (file_stamped_persists E entry (stamped E req comment v1) owner repo rest
           master _ Hm Hsplit Hb Hc Hf Hp).
Qed.

Lemma verification_sets_only_the_flag_witness :
  exists v1 v2,
    verify demo_env (Email demo_comment) demo_request = Ok v1
    /\ verify demo_env (Email demo_comment) (with_header demo_request ∅) = Ok v2
    /\ v1 = true /\ v2 = false
    /\ status (w (snd (serve demo_env demo_request))) = Some 200
    /\ status (w (snd (serve demo_env (with_header demo_request ∅)))) = Some 200
    /\ map without_content (calls (snd (serve demo_env demo_request)))
       = map without_content (calls (snd (serve demo_env (with_header demo_request ∅)))).
Proof.
  destruct (verification_sets_only_the_flag demo_env demo_request ∅ demo_entry demo_comment)
    as (v1 & v2 & Hv1 & Hv2 & H).
  - intros c v. reflexivity.
  - apply demo_reaches_verification; try reflexivity. now left.
  - cbv zeta in H.
    destruct H as (_ & _ & _ & _ & Hstatus & Hcalls & _ & _ & Hpersist).
    destruct (Hpersist "netlify" "gotell" [] demo_master) as (_ & H200 & _);
      try reflexivity; [vm_compute; discriminate|].
    exists v1, v2. split; [exact Hv1|]. split; [exact Hv2|].
    split; [vm_compute in Hv1; congruence|].
    split; [vm_compute in Hv2; congruence|].
    split; [exact H200|]. split; [now rewrite <- Hstatus | exact Hcalls].
Defined.

(** ** Identity verification *)

Lemma substring_all (s : string) (m : nat) :
  (String.length s <= m)%nat -> String.substring 0 m s = s.
Proof.
  revert m; induction s as [|c s IH]; intros m Hm.
  - now destruct m.
  - destruct m as [|m]; simpl in *; [lia|]. rewrite IH; [reflexivity | lia].
Qed.

Lemma append_empty_r (s : string) : s +:+ "" = s.
Proof.
  induction s as [|c s IH]; [reflexivity|].
  change (String c s +:+ "") with (String c (s +:+ "")). now rewrite IH.
Qed.

Lemma span_append (f : ascii -> bool) (s a b : string) :
  span f s = (a, b) -> s = a +:+ b.
Proof.
  revert a b; induction s as [|c s IH]; intros a b; simpl.
  - now intros [= <- <-].
  - destruct (f c).
    + destruct (span f s) as [a' b'] eqn:Hs. intros [= <- <-].
      simpl. now rewrite (IH a' b' eq_refl).
    + now intros [= <- <-].
Qed.

(** What [bearerRegexp] matches: [Bearer] or [bearer], one space, and a
    token that is not empty. *)
Lemma bearer_match_shape (h : string) :
  bearerRegexp_FindStringSubmatch h = []
  \/ exists b tok,
       (b = "B"%char \/ b = "b"%char)
       /\ h = String b ("earer " +:+ tok) /\ tok <> ""
       /\ bearerRegexp_FindStringSubmatch h = [h; tok].
Proof.
  destruct h as [|b r]; [now left|].
  cbn [bearerRegexp_FindStringSubmatch].
  destruct ((Ascii.eqb b "B" || Ascii.eqb b "b") && HasPrefix r "earer ") eqn:Hhead;
    [|now left].
  apply andb_true_iff in Hhead as [Hb Hp].
  apply HasPrefix_spec in Hp as [tok ->].
  replace (String.substring 6 (String.length ("earer " +:+ tok)) ("earer " +:+ tok))
    with tok by (simpl; rewrite substring_all; [reflexivity | lia]).
  destruct (span (fun c => negb (is_regexp_space c)) tok) as [g rest] eqn:Hspan.
  apply span_append in Hspan.
  destruct g as [|c g]; [now left|]. destruct rest; [|now left].
  rewrite append_empty_r in Hspan. subst tok.
  right. exists b, (String c g). repeat split; [|discriminate].
  apply orb_true_iff in Hb as [Hb|Hb]; apply Ascii.eqb_eq in Hb; auto.
Qed.

Lemma bearer_match_header (h tok : string) (ms : list string) :
  bearerRegexp_FindStringSubmatch h = h :: tok :: ms -> bearer_header h tok.
Proof.
  intros Hm. destruct (bearer_match_shape h) as [Hnil | (b & t & Hb & Hh & Ht & Hr)].
  - congruence.
  - rewrite Hr in Hm. injection Hm as <- <-.
    exists (String b "earer"). split; [exact Hh|]. split; [|exact Ht].
    destruct Hb as [-> | ->]; reflexivity.
Qed.

(** The token of a bearer header is the one the pattern extracts, when it
    matches. *)
Lemma bearer_header_token (h tok : string) :
  bearer_header h tok ->
  bearerRegexp_FindStringSubmatch h = []
  \/ bearerRegexp_FindStringSubmatch h = [h; tok].
Proof.
  intros (scheme & Hh & Hlow & Htok).
  destruct (bearer_match_shape h) as [Hnil | (b & t & Hb & Hh' & Ht & Hr)];
    [now left | right].
  rewrite Hr. repeat f_equal.
  destruct scheme as [|c1 [|c2 [|c3 [|c4 [|c5 [|c6 [|c7 s]]]]]]]; try discriminate Hlow.
  rewrite Hh in Hh'. cbv [String.append] in Hh'.
  injection Hh'. intros. congruence.
Qed.

(** [verify] on a header the pattern matches: the decision is the one of
    [jwt.Parse] and of the email claim. *)
Lemma verify_matched (E : Env) (email : string) (r : Request) (tok : string) :
  let h := Header_Get (Request_Header r) "Authorization" in
  bearerRegexp_FindStringSubmatch h = [h; tok] ->
  verify E email r =
    match jwt_ParseUnverified E tok with
    | Err _ => Ok false
    | Val token =>
        if String.eqb (Method_Alg token) "HS256"
           && MapClaims_Valid E (Claims token)
           && SigningMethod_Verify E (Method_Alg token) (SigningString token)
                (Signature token) (JWT_Secret (config E))
        then match Claims token !! "email" with
             | Some (JString claimedEmail) => Ok (String.eqb claimedEmail email)
             | _ => Ok false
             end
        else Ok false
    end.
Proof.
  cbv zeta. intros Hm. unfold verify.
  destruct (String.eqb (Header_Get (Request_Header r) "Authorization") "") eqn:Hempty.
  { apply String.eqb_eq in Hempty. rewrite Hempty in Hm. discriminate Hm. }
  rewrite Hm. cbn [List.length Nat.eqb negb index_ nth_error].
  unfold jwt_Parse, verify_keyFunc.
  destruct (jwt_ParseUnverified E tok) as [token|err]; [|reflexivity].
  destruct (String.eqb (Method_Alg token) "HS256"); cbn [negb andb]; [|reflexivity].
  destruct (MapClaims_Valid E (Claims token)); cbn [andb]; [|reflexivity].
  destruct (SigningMethod_Verify E _ _ _ _); [|reflexivity].
  cbn [Valid Claims set_Valid].
  destruct (Claims token !! "email") as [[]|]; reflexivity.
Qed.

Lemma verify_unmatched (E : Env) (email : string) (r : Request) :
  bearerRegexp_FindStringSubmatch (Header_Get (Request_Header r) "Authorization") = [] ->
  verify E email r = Ok false.
Proof.
  intros Hm. unfold verify. rewrite Hm.
  now destruct (String.eqb _ "").
Qed.

(** C6: [verify] returns true only when the Authorization header reads
    [Bearer <token>] (the scheme in any mix of cases), the token is signed
    under HS256 with the configured secret, and its [email] claim is the
    claimed email.  It returns false when the header is missing, when the
    header is not a bearer header, and, for a bearer header whose token
    decodes, when the algorithm is not HS256, when the signature is not
    valid, or when the email claim is not the claimed email. *)
Theorem verify_is_sound (E : Env) (email : string) (r : Request) :
  let h := Header_Get (Request_Header r) "Authorization" in
  (verify E email r = Ok true ->
     exists tok token,
       bearer_header h tok /\ validly_signed E tok token
       /\ Claims token !! "email" = Some (JString email))
  /\ (Request_Header r !! "Authorization" = None -> verify E email r = Ok false)
  /\ ((forall tok, ~ bearer_header h tok) -> verify E email r = Ok false)
  /\ (forall tok token,
        bearer_header h tok ->
        jwt_ParseUnverified E tok = Val token ->
        Method_Alg token <> "HS256"
        \/ SigningMethod_Verify E (Method_Alg token) (SigningString token)
             (Signature token) (JWT_Secret (config E)) = false
        \/ Claims token !! "email" <> Some (JString email) ->
        verify E email r = Ok false).
Proof.
  cbv zeta. split; [|split; [|split]].
  - intros Hv.
    destruct (bearer_match_shape (Header_Get (Request_Header r) "Authorization"))
      as [Hnil | (b & tok & Hb & Hh & Ht & Hr)].
    { rewrite (verify_unmatched E email r Hnil) in Hv. discriminate Hv. }
    rewrite (verify_matched E email r tok Hr) in Hv.
    destruct (jwt_ParseUnverified E tok) as [token|err] eqn:Hparse; [|discriminate Hv].
    destruct (String.eqb (Method_Alg token) "HS256") eqn:Halg; [|discriminate Hv].
    apply String.eqb_eq in Halg.
    destruct (MapClaims_Valid E (Claims token)); [|discriminate Hv].
    cbn [andb] in Hv.
    destruct (SigningMethod_Verify E _ _ _ _) eqn:Hsig; [|discriminate Hv].
    destruct (Claims token !! "email") as [[| | |claimed| |]|] eqn:Hclaim;
      try discriminate Hv.
    injection Hv as Heq. apply String.eqb_eq in Heq. subst claimed.
    exists tok, token. split; [exact (bearer_match_header _ _ _ Hr)|].
    split; [|exact Hclaim].
    split; [exact Hparse|]. split; [exact Halg|]. now rewrite <- Halg.
  - intros Hnone. unfold verify, Header_Get. now rewrite Hnone.
  - intros Hno.
    destruct (bearer_match_shape (Header_Get (Request_Header r) "Authorization"))
      as [Hnil | (b & tok & Hb & Hh & Ht & Hr)].
    + exact (verify_unmatched E email r Hnil).
    + destruct (Hno tok). exact (bearer_match_header _ _ _ Hr).
  - intros tok token Hbearer Hparse Hbad.
    destruct (bearer_header_token _ _ Hbearer) as [Hnil | Hr].
    + exact (verify_unmatched E email r Hnil).
    + rewrite (verify_matched E email r tok Hr), Hparse.
      destruct (String.eqb (Method_Alg token) "HS256") eqn:Halg; [|reflexivity].
      apply String.eqb_eq in Halg.
      destruct (MapClaims_Valid E (Claims token)); [|reflexivity].
      cbn [andb].
      destruct (SigningMethod_Verify E _ _ _ _) eqn:Hsig; [|reflexivity].
      destruct Hbad as [Hb | [Hb | Hb]]; [contradiction | discriminate Hb |].
      destruct (Claims token !! "email") as [[| | |claimed| |]|]; try reflexivity.
      destruct (String.eqb claimed email) eqn:Heq; [|reflexivity].
      apply String.eqb_eq in Heq. subst claimed. now destruct Hb.
Qed.

Lemma verify_is_sound_witness :
  (exists tok token,
     bearer_header "Bearer h.c.sig" tok /\ validly_signed demo_env tok token
     /\ Claims token !! "email" = Some (JString "ann@example.org"))
  /\ verify demo_env "ann@example.org" (with_header demo_request ∅) = Ok false
  /\ verify demo_env "ann@example.org" (authorized "Basic YW5u") = Ok false
  /\ verify demo_env "ann@example.org" (authorized "Bearer n.c.") = Ok false
  /\ verify demo_env "ann@example.org" (authorized "Bearer h.c.bad") = Ok false
  /\ verify demo_env "eve@example.org" (authorized "Bearer h.c.sig") = Ok false.
Proof.
  assert (Hbearer : forall tok, tok <> "" -> bearer_header ("Bearer " +:+ tok) tok).
  { intros tok Ht. exists "Bearer". repeat split. exact Ht. }
  split; [|split; [|split; [|split; [|split]]]].
  - apply (proj1 (verify_is_sound demo_env "ann@example.org" demo_request)).
    vm_compute. reflexivity.
  - apply (proj1 (proj2 (verify_is_sound demo_env "ann@example.org"
                           (with_header demo_request ∅)))).
    reflexivity.
  - apply (proj1 (proj2 (proj2 (verify_is_sound demo_env "ann@example.org"
                                  (authorized "Basic YW5u"))))).
    intros tok (scheme & Hh & Hlow & _).
    destruct scheme as [|c1 [|c2 [|c3 [|c4 [|c5 [|c6 [|c7 s]]]]]]]; try discriminate Hlow.
    vm_compute in Hh. discriminate Hh.
  - apply (proj2 (proj2 (proj2 (verify_is_sound demo_env "ann@example.org"
                                  (authorized "Bearer n.c."))))
             "n.c." unsigned_token).
    + apply (Hbearer "n.c."). discriminate.
    + reflexivity.
    + left. discriminate.
  - apply (proj2 (proj2 (proj2 (verify_is_sound demo_env "ann@example.org"
                                  (authorized "Bearer h.c.bad"))))
             "h.c.bad" forged_token).
    + apply (Hbearer "h.c.bad"). discriminate.
    + reflexivity.
    + right. left. reflexivity.
  - apply (proj2 (proj2 (proj2 (verify_is_sound demo_env "eve@example.org"
                                  (authorized "Bearer h.c.sig"))))
             "h.c.sig" demo_token).
    + apply (Hbearer "h.c.sig"). discriminate.
    + reflexivity.
    + right. right. vm_compute. discriminate.
Defined.

(** ** The failures of the review branch, in general *)

(** Whenever the thread pattern does not match, the handler panics at
    [matches[1]], with nothing written and no store call made. *)
Lemma no_match_panics (E : Env) (req : Request) (entry : EntryData) (comment : RawComment) :
  reaches_verification E req entry comment ->
  threadRegexp_FindStringSubmatch (Thread entry) = [] ->
  serve E req
  = (Panic "index out of range", nothing_written (S (S (ticks (after_gates E)))) []).
Proof.
  intros Hr Hm. destruct (serve_stamped E req entry comment Hr) as (v & _ & ->).
  unfold file_stamped. rewrite Hm. reflexivity.
Qed.

(** Whenever [GetBranch] answers a nil branch, the review branch panics
    after that one call, whatever the error that came with it. *)
Lemma nil_branch_panics (E : Env) (owner repo : string) (rest : list string)
    (pathname content message : string) (c : RawComment) (n : nat)
    (err : option string) :
  GetBranch_answer (client E) = (None, err) ->
  reviewed E (owner :: repo :: rest) pathname content message c (nothing_written n [])
  = (Panic "invalid memory address or nil pointer dereference",
     nothing_written n [Repositories_GetBranch owner repo "master"]).
Proof. intros Hb. unfold reviewed. run_all. rewrite Hb. reflexivity. Qed.

(** X1: on the review branch, once [GetBranch] has answered a branch, a step
    that fails ends the request with status 500 and a message for that step,
    and no later call is made. *)
Lemma review_step_failures (E : Env) (owner repo : string) (rest : list string)
    (pathname content message : string) (c : RawComment) (n : nat)
    (master : Branch) (err : string) :
  let r := reviewed E (owner :: repo :: rest) pathname content message c
             (nothing_written n []) in
  let all := review_calls owner repo pathname content message c master in
  (GetBranch_answer (client E) = (Some master, Some err) ->
   r = (Ok tt, mkHandlerState (json_error E ("Failed to write comment: " +:+ err) 500)
                 (firstn 1 all) n))
  /\ (GetBranch_answer (client E) = (Some master, None) ->
      CreateRef_answer (client E) = Some err ->
      r = (Ok tt, mkHandlerState
                    (json_error E ("Failed to create comment branch: " +:+ err) 500)
                    (firstn 2 all) n))
  /\ (GetBranch_answer (client E) = (Some master, None) ->
      CreateRef_answer (client E) = None ->
      CreateFile_answer (client E) = Some err ->
      r = (Ok tt, mkHandlerState (json_error E ("Failed to write comment: " +:+ err) 500)
                    (firstn 3 all) n))
  /\ (GetBranch_answer (client E) = (Some master, None) ->
      CreateRef_answer (client E) = None ->
      CreateFile_answer (client E) = None ->
      PullRequests_Create_answer (client E) = Some err ->
      r = (Ok tt, mkHandlerState (json_error E ("Failed to create PR: " +:+ err) 500)
                    all n)).
Proof.
  cbv zeta. unfold reviewed, review_calls, json_error.
  repeat split.
  - intros ->. run_all. reflexivity.
  - intros -> ->. run_all. reflexivity.
  - intros -> -> ->. run_all. reflexivity.
  - intros -> -> -> ->. run_all. reflexivity.
Qed.

Lemma review_step_failures_witness :
  reviewed branch_failure_env ["netlify"; "gotell"] "p" "c" "m" demo_comment
    (nothing_written 4 [])
  = (Ok tt,
     mkHandlerState
       (json_error branch_failure_env
          "Failed to create comment branch: 422 Reference already exists" 500)
       [Repositories_GetBranch "netlify" "gotell" "master";
        Git_CreateRef "netlify" "gotell" "refs/heads/comment-" "c0ffee"] 4).
Proof.
  apply (proj1 (proj2 (review_step_failures branch_failure_env "netlify" "gotell" []
                         "p" "c" "m" demo_comment 4 demo_master
                         "422 Reference already exists")));
    reflexivity.
Defined.

(** ** Other visible rejections *)

(** X2: on the direct branch a failed write ends the request with status
    500 and the write message, after the one [CreateFile] call on
    [master]. *)
Lemma direct_write_failure (E : Env) (owner repo : string) (rest : list string)
    (pathname content message : string) (c : RawComment) (n : nat) (err : string) :
  CreateFile_answer (client E) = Some err ->
  direct E (owner :: repo :: rest) pathname content message c (nothing_written n [])
  = (Ok tt,
     mkHandlerState (json_error E ("Failed to write comment: " +:+ err) 500)
       [Repositories_CreateFile owner repo pathname message content "master"] n).
Proof. intros Hf. unfold direct. run_all. rewrite Hf. reflexivity. Qed.

Lemma direct_write_failure_witness :
  direct write_failure_env ["netlify"; "gotell"] "p" "c" "m" demo_comment
    (nothing_written 4 [])
  = (Ok tt,
     mkHandlerState
       (json_error write_failure_env "Failed to write comment: 409 Conflict" 500)
       [Repositories_CreateFile "netlify" "gotell" "p" "m" "c" "master"] 4).
Proof.
  apply (direct_write_failure write_failure_env "netlify" "gotell" [] "p" "c" "m"
           demo_comment 4 "409 Conflict").
  reflexivity.
Defined.

(** X3: from an address that is not banned, a path that does not resolve is
    answered with status 400, and a body that does not decode, on an open
    thread, with status 422; each message carries the error, and no store
    call is made. *)
Lemma validation_errors (E : Env) (req : Request) (err : string) :
  ~ In (Request_RemoteAddr req) (BannedIPs (getSettings E)) ->
  (entryData E (Request_URL_Path req) = Err err ->
   serve E req
   = (Ok tt, mkHandlerState
               (json_error E ("Unable to read entry data: " +:+ err) 400) [] 0))
  /\ (forall entry,
        entryData E (Request_URL_Path req) = Val entry ->
        thread_open E entry ->
        json_Decode E (Request_Body req) = Err err ->
        serve E req
        = (Ok tt, mkHandlerState
                    (json_error E ("Error decoding JSON body: " +:+ err) 422) []
                    (ticks (after_gates E)))).
Proof.
  intros Hip. apply banned_ip_test_false in Hip.
  split.
  - intros Hentry. unfold serve, postComment.
    cbv [bind Header_Set modify_w start no_response w calls ticks header status body].
    rewrite Hip, Hentry. reflexivity.
  - intros entry Hentry Hopen Hdec. unfold serve, postComment, after_gates.
    cbv [bind Header_Set modify_w start no_response w calls ticks header status body].
    rewrite Hip, Hentry.
    destruct (TimeLimit (getSettings E) =? 0) eqn:Hlim; cbn [negb].
    + cbv [ret]. rewrite Hdec. reflexivity.
    + cbv [bind ret time_Now ticks w calls].
      destruct Hopen as [H0|Hle]; [apply Z.eqb_neq in Hlim; contradiction|].
      apply Z.ltb_ge in Hle. rewrite Hle, Hdec. reflexivity.
Qed.

Lemma validation_errors_witness :
  serve demo_env lost_request
  = (Ok tt, mkHandlerState
              (json_error demo_env "Unable to read entry data: not found" 400) [] 0)
  /\ serve demo_env garbled_request
     = (Ok tt, mkHandlerState
                 (json_error demo_env
                    "Error decoding JSON body: unexpected end of JSON input" 422) [] 1).
Proof.
  assert (Hip : ~ In "10.0.0.1:4000" (BannedIPs (getSettings demo_env))).
  { simpl. intros [H|[]]. discriminate H. }
  split.
  - apply (proj1 (validation_errors demo_env lost_request "not found" Hip)).
    reflexivity.
  - apply (proj2 (validation_errors demo_env garbled_request
                    "unexpected end of JSON input" Hip) demo_entry).
    + reflexivity.
    + right. vm_compute. discriminate.
    + reflexivity.
Defined.

(** ** The name of a comment file is safe *)

Lemma every_impl (P Q : ascii -> bool) (s : string) :
  (forall c, P c = true -> Q c = true) -> every P s = true -> every Q s = true.
Proof.
  intros HPQ. induction s as [|c s IH]; simpl; [reflexivity|].
  rewrite !andb_true_iff. intros [Hc Hs]. auto.
Qed.

Lemma every_substring (P : ascii -> bool) (s : string) (n m : nat) :
  every P s = true -> every P (String.substring n m s) = true.
Proof.
  revert n m. induction s as [|c s IH]; intros n m; simpl.
  - now destruct n, m.
  - rewrite andb_true_iff. intros [Hc Hs].
    destruct n as [|n]; [destruct m as [|m]|]; simpl; auto.
    rewrite Hc. now apply IH.
Qed.

Lemma length_substring_le (s : string) (m : nat) :
  (String.length (String.substring 0 m s) <= m)%nat.
Proof.
  revert m. induction s as [|c s IH]; intros [|m]; simpl; try lia.
  specialize (IH m). lia.
Qed.

Lemma every_TrimLeftFunc (P f : ascii -> bool) (s : string) :
  every P s = true -> every P (TrimLeftFunc f s) = true.
Proof.
  induction s as [|c s IH]; simpl; [reflexivity|].
  rewrite andb_true_iff. intros [Hc Hs].
  destruct (f c); [auto | simpl; now rewrite Hc, Hs].
Qed.

Lemma every_TrimRightFunc (P f : ascii -> bool) (s : string) :
  every P s = true -> every P (TrimRightFunc f s) = true.
Proof.
  induction s as [|c s IH]; simpl; [reflexivity|].
  rewrite andb_true_iff. intros [Hc Hs]. specialize (IH Hs).
  destruct (TrimRightFunc f s); [destruct (f c)|]; simpl in *; now rewrite ?Hc.
Qed.

Lemma length_TrimLeftFunc (f : ascii -> bool) (s : string) :
  (String.length (TrimLeftFunc f s) <= String.length s)%nat.
Proof.
  induction s as [|c s IH]; simpl; [lia|]. destruct (f c); simpl; lia.
Qed.

Lemma length_TrimRightFunc (f : ascii -> bool) (s : string) :
  (String.length (TrimRightFunc f s) <= String.length s)%nat.
Proof.
  induction s as [|c s IH]; simpl; [lia|].
  destruct (TrimRightFunc f s); [destruct (f c)|]; simpl in *; lia.
Qed.

(** What is left after trimming does not start with a trimmed byte... *)
Lemma first_byte_TrimLeftFunc (f : ascii -> bool) (s : string) (c : ascii) :
  first_byte (TrimLeftFunc f s) = Some c -> f c = false.
Proof.
  induction s as [|d s IH]; simpl; [discriminate|].
  destruct (f d) eqn:Hd; [exact IH|]. simpl. now intros [= <-].
Qed.

Lemma first_byte_TrimRightFunc (f : ascii -> bool) (s : string) (c : ascii) :
  first_byte (TrimRightFunc f s) = Some c -> first_byte s = Some c.
Proof.
  destruct s as [|d s]; simpl; [discriminate|].
  destruct (TrimRightFunc f s); [destruct (f d)|]; simpl; try discriminate; auto.
Qed.

(** ... and does not end with one. *)
Lemma last_byte_TrimRightFunc (f : ascii -> bool) (s : string) (c : ascii) :
  last_byte (TrimRightFunc f s) = Some c -> f c = false.
Proof.
  induction s as [|d s IH]; simpl; [discriminate|].
  destruct (TrimRightFunc f s) as [|e t] eqn:Ht.
  - destruct (f d) eqn:Hd; simpl; [discriminate|]. now intros [= <-].
  - exact IH.
Qed.

Lemma first_byte_Trim (s cutset : string) (c : ascii) :
  first_byte (Trim s cutset) = Some c -> mem_byte c cutset = false.
Proof.
  unfold Trim, TrimFunc. intros H.
  apply first_byte_TrimRightFunc in H. now apply first_byte_TrimLeftFunc in H.
Qed.

Lemma last_byte_Trim (s cutset : string) (c : ascii) :
  last_byte (Trim s cutset) = Some c -> mem_byte c cutset = false.
Proof. unfold Trim, TrimFunc. apply last_byte_TrimRightFunc. Qed.

Lemma hyphen_append (s : string) : "-" +:+ s = String hyphen s.
Proof. reflexivity. Qed.

Lemma lower_byte_not_upper (c : ascii) : is_upper (lower_byte c) = false.
Proof. destruct c as [[] [] [] [] [] [] [] []]; reflexivity. Qed.

Lemma every_ToLower (s : string) :
  every (fun c => negb (is_upper c)) (ToLower s) = true.
Proof.
  unfold ToLower. induction s as [|c s IH]; simpl; [reflexivity|].
  now rewrite lower_byte_not_upper, IH.
Qed.

Lemma word_byte_is_name_byte (c : ascii) :
  is_upper c = false -> is_word c = true -> name_byte c = true.
Proof.
  unfold is_word, name_byte. intros ->.
  destruct (is_digit c), (is_lower c), (N_of_ascii c =? 95)%N; simpl;
    intros H; try discriminate H; reflexivity.
Qed.

Lemma every_slugify (s : string) :
  every (fun c => negb (is_upper c)) s = true ->
  every name_byte (slugify_ReplaceAllString s "-") = true.
Proof.
  induction s as [|c s IH]; simpl; [reflexivity|].
  rewrite andb_true_iff, negb_true_iff. intros [Hc Hs].
  destruct (is_word c) eqn:Hw.
  - simpl. now rewrite (word_byte_is_name_byte c Hc Hw), IH.
  - rewrite hyphen_append. simpl. now rewrite IH.
Qed.

Lemma length_slugify (s : string) :
  String.length (slugify_ReplaceAllString s "-") = String.length s.
Proof.
  induction s as [|c s IH]; simpl; [reflexivity|].
  destruct (is_word c); [|rewrite hyphen_append]; simpl; now rewrite IH.
Qed.

Lemma every_squeeze_go (P : ascii -> bool) (b : bool) (s : string) :
  every P s = true -> every P (squeeze_go b s "-") = true.
Proof.
  revert b. induction s as [|c s IH]; intros b; simpl; [reflexivity|].
  rewrite andb_true_iff. intros [Hc Hs].
  destruct (Ascii.eqb c hyphen) eqn:Hh.
  - apply Ascii.eqb_eq in Hh. subst c.
    destruct b; [now apply IH|]. rewrite hyphen_append. simpl. now rewrite Hc, IH.
  - simpl. now rewrite Hc, IH.
Qed.

Lemma length_squeeze_go (b : bool) (s : string) :
  (String.length (squeeze_go b s "-") <= String.length s)%nat.
Proof.
  revert b. induction s as [|c s IH]; intros b; simpl; [lia|].
  destruct (Ascii.eqb c hyphen).
  - destruct b; [|rewrite hyphen_append; simpl]; specialize (IH true); lia.
  - simpl. specialize (IH false). lia.
Qed.

Lemma no_double_hyphen_cons (a b : ascii) (t : string) :
  no_double_hyphen (String a (String b t))
  = negb (Ascii.eqb a hyphen && Ascii.eqb b hyphen) && no_double_hyphen (String b t).
Proof. reflexivity. Qed.

(** Within a run the output does not start with a hyphen, and nowhere are
    there two in a row. *)
Lemma squeeze_go_no_double (b : bool) (s : string) :
  no_double_hyphen (squeeze_go b s "-") = true
  /\ (b = true -> first_byte (squeeze_go b s "-") <> Some hyphen).
Proof.
  revert b. induction s as [|c s IH]; intros b; simpl.
  - split; [reflexivity | discriminate].
  - destruct (Ascii.eqb c hyphen) eqn:Hh.
    + destruct (IH true) as [Hnd Hfirst]. specialize (Hfirst eq_refl).
      destruct b; [split; auto|]. rewrite hyphen_append.
      split; [|discriminate].
      destruct (squeeze_go true s "-") as [|d t] eqn:Hs; [reflexivity|].
      rewrite no_double_hyphen_cons, Hnd, andb_true_r.
      simpl in Hfirst. destruct (Ascii.eqb d hyphen) eqn:Hd.
      * apply Ascii.eqb_eq in Hd. subst d. now destruct Hfirst.
      * now rewrite andb_false_r.
    + destruct (IH false) as [Hnd _].
      split; [|intros _; simpl; intros [= ->]; now rewrite Ascii.eqb_refl in Hh].
      destruct (squeeze_go false s "-") as [|d t] eqn:Hs; [reflexivity|].
      now rewrite no_double_hyphen_cons, Hh, Hnd.
Qed.

Lemma first_byte_squeeze (s : string) :
  first_byte s <> Some hyphen -> first_byte (squeeze_go false s "-") <> Some hyphen.
Proof.
  destruct s as [|c s]; simpl; [auto|].
  destruct (Ascii.eqb c hyphen) eqn:Hh.
  - apply Ascii.eqb_eq in Hh. subst c. intros H. now destruct H.
  - simpl. auto.
Qed.

Lemma last_byte_cons (c : ascii) (s : string) :
  s <> "" -> last_byte (String c s) = last_byte s.
Proof. destruct s; [now intros [] | reflexivity]. Qed.

Lemma squeeze_go_cons (b : bool) (d : ascii) (s : string) :
  squeeze_go b (String d s) "-"
  = if Ascii.eqb d hyphen
    then if b then squeeze_go true s "-" else "-" +:+ squeeze_go true s "-"
    else String d (squeeze_go false s "-").
Proof. reflexivity. Qed.

Lemma last_byte_squeeze_go (b : bool) (s : string) (c : ascii) :
  last_byte s = Some c -> c <> hyphen -> last_byte (squeeze_go b s "-") = Some c.
Proof.
  revert b. induction s as [|d s IH]; intros b Hlast Hc; [discriminate|].
  destruct s as [|e t].
  - simpl in Hlast. injection Hlast as ->. simpl.
    destruct (Ascii.eqb c hyphen) eqn:Hh; [apply Ascii.eqb_eq in Hh; contradiction|].
    reflexivity.
  - assert (Hrest : last_byte (String e t) = Some c) by exact Hlast.
    assert (Hne : forall b', squeeze_go b' (String e t) "-" <> "").
    { intros b' Hempty. specialize (IH b' Hrest Hc). rewrite Hempty in IH. discriminate. }
    rewrite (squeeze_go_cons b d (String e t)). destruct (Ascii.eqb d hyphen).
    + destruct b; [now apply IH|].
      rewrite hyphen_append, last_byte_cons; [now apply IH | apply Hne].
    + rewrite last_byte_cons; [now apply IH | apply Hne].
Qed.

Lemma last_byte_None (s : string) : last_byte s = None -> s = "".
Proof.
  induction s as [|d s IH]; [reflexivity|].
  destruct s as [|e t]; [discriminate|].
  intros H. assert (Hs : String e t = "") by (apply IH; exact H). discriminate Hs.
Qed.

Lemma last_byte_squeeze (s : string) :
  last_byte s <> Some hyphen -> last_byte (squeeze_go false s "-") <> Some hyphen.
Proof.
  destruct (last_byte s) as [c|] eqn:Hlast.
  - intros Hc. rewrite (last_byte_squeeze_go false s c Hlast); congruence.
  - apply last_byte_None in Hlast. subst s. intros _. discriminate.
Qed.

Lemma every_append (P : ascii -> bool) (a b : string) :
  every P (a +:+ b) = every P a && every P b.
Proof.
  induction a as [|c a IH]; [reflexivity|].
  change (String c a +:+ b) with (String c (a +:+ b)). simpl.
  now rewrite IH, andb_assoc.
Qed.

Lemma every_substring_of (P : ascii -> bool) (sub s : string) :
  every P s = true -> substring_of sub s -> every P sub = true.
Proof.
  intros Hs (pre & post & ->).
  rewrite !every_append, !andb_true_iff in Hs. tauto.
Qed.

Lemma no_double_hyphen_sound (s : string) :
  no_double_hyphen s = true -> ~ substring_of "--" s.
Proof.
  intros Hnd (pre & post & ->). revert Hnd.
  induction pre as [|c pre IH].
  - change ("" +:+ "--" +:+ post) with (String hyphen (String hyphen post)).
    rewrite no_double_hyphen_cons. discriminate.
  - change (String c pre +:+ "--" +:+ post) with (String c (pre +:+ "--" +:+ post)).
    destruct (pre +:+ "--" +:+ post) as [|d t] eqn:Ht.
    + destruct pre; discriminate Ht.
    + rewrite no_double_hyphen_cons, andb_true_iff. intros [_ H]. now apply IH.
Qed.

(** X4: the name of the comment file, for every body, is made of digits,
    lower-case letters, underscores and hyphens only (so it holds no slash
    and no dot), neither starts nor ends with a hyphen, has no two hyphens
    in a row, and is at most 50 bytes long. *)
Theorem name_is_safe (b : string) :
  exists name,
    slug b = Ok name
    /\ every name_byte name = true
    /\ ~ substring_of "/" name /\ ~ substring_of "." name
    /\ first_byte name <> Some hyphen
    /\ last_byte name <> Some hyphen
    /\ ~ substring_of "--" name
    /\ len_ name <= 50.
Proof.
  unfold slug. rewrite firstParagraph_is_body, name_of_total.
  set (fp := ToLower (TrimSpace b)).
  set (cut := String.substring 0 (Z.to_nat (Min 50 (len_ fp))) fp).
  set (trimmed := Trim (slugify_ReplaceAllString cut "-") "-").
  eexists. split; [reflexivity|].
  assert (Hcut : every (fun c => negb (is_upper c)) cut = true)
    by (apply every_substring, every_ToLower).
  assert (Htrim : every name_byte trimmed = true).
  { unfold trimmed, Trim, TrimFunc.
    now apply every_TrimRightFunc, every_TrimLeftFunc, every_slugify. }
  assert (Hevery : every name_byte (squeeze_ReplaceAllString trimmed "-") = true)
    by now apply every_squeeze_go.
  assert (Hcutset : forall c, mem_byte c "-" = false -> c <> hyphen).
  { intros c Hc ->. discriminate Hc. }
  repeat split.
  - exact Hevery.
  - intros H. apply (every_substring_of _ _ _ Hevery) in H. discriminate H.
  - intros H. apply (every_substring_of _ _ _ Hevery) in H. discriminate H.
  - apply first_byte_squeeze. intros H. apply first_byte_Trim in H.
    now apply (Hcutset hyphen).
  - apply last_byte_squeeze. intros H. apply last_byte_Trim in H.
    now apply (Hcutset hyphen).
  - apply no_double_hyphen_sound, squeeze_go_no_double.
  - unfold len_, squeeze_ReplaceAllString.
    pose proof (length_squeeze_go false trimmed) as H1.
    assert (H2 : (String.length trimmed <= String.length cut)%nat).
    { unfold trimmed, Trim, TrimFunc.
      etransitivity; [apply length_TrimRightFunc|].
      etransitivity; [apply length_TrimLeftFunc|].
      now rewrite length_slugify. }
    pose proof (length_substring_le fp (Z.to_nat (Min 50 (len_ fp)))) as H3.
    fold cut in H3. pose proof (Min_clamps fp) as H4.
    assert (Min 50 (len_ fp) <= 50) by (unfold Min; destruct (50 <? len_ fp) eqn:E;
      [lia | apply Z.ltb_ge in E; lia]).
    lia.
Qed.

(** ** The thread pattern *)

Lemma span_every (f : ascii -> bool) (s a b : string) :
  span f s = (a, b) ->
  every f a = true /\ (forall c, first_byte b = Some c -> f c = false).
Proof.
  revert a b. induction s as [|c s IH]; intros a b; simpl.
  - intros [= <- <-]. split; [reflexivity | discriminate].
  - destruct (f c) eqn:Hc.
    + destruct (span f s) as [a' b'] eqn:Hs. intros [= <- <-].
      destruct (IH a' b' eq_refl) as [Ha Hb]. simpl. rewrite Hc, Ha. auto.
    + intros [= <- <-]. split; [reflexivity|]. simpl. now intros d [= <-].
Qed.

Lemma span_prefix (f : ascii -> bool) (a b : string) :
  every f a = true ->
  (forall c, first_byte b = Some c -> f c = false) ->
  span f (a +:+ b) = (a, b).
Proof.
  intros Ha Hb. induction a as [|c a IH].
  - change ("" +:+ b) with b. destruct b as [|d b]; [reflexivity|].
    simpl. now rewrite (Hb d eq_refl).
  - change (String c a +:+ b) with (String c (a +:+ b)).
    simpl in Ha. apply andb_true_iff in Ha as [Hc Ha].
    simpl. now rewrite Hc, (IH Ha).
Qed.

Lemma append_assoc (a b c : string) : (a +:+ b) +:+ c = a +:+ b +:+ c.
Proof.
  induction a as [|x a IH]; [reflexivity|].
  change ((String x a +:+ b) +:+ c) with (String x ((a +:+ b) +:+ c)).
  now rewrite IH.
Qed.

Lemma FindStringSubmatch_here (s : string) (m : list string) :
  threadRegexp_match_here s = Some m -> threadRegexp_FindStringSubmatch s = m.
Proof. intros H. destruct s; cbn [threadRegexp_FindStringSubmatch]; now rewrite H. Qed.

(** A match at the start of [s]: its groups and what it covers. *)
Lemma threadRegexp_match_here_groups (s : string) (m : list string) :
  threadRegexp_match_here s = Some m ->
  exists g1 g2 g3 rest,
    m = [g1 +:+ "-" +:+ g2 +:+ "-" +:+ g3; g1; g2; g3]
    /\ s = (g1 +:+ "-" +:+ g2 +:+ "-" +:+ g3) +:+ rest
    /\ g1 <> "" /\ every is_digit g1 = true
    /\ g2 <> "" /\ every is_digit g2 = true
    /\ g3 <> "" /\ every not_newline g3 = true.
Proof.
  unfold threadRegexp_match_here.
  destruct (span is_digit s) as [g1 r1] eqn:H1.
  destruct g1 as [|c1 g1]; [discriminate|].
  destruct r1 as [|h1 r2]; [discriminate|].
  destruct (Ascii.eqb h1 hyphen) eqn:Hh1; [|discriminate].
  apply Ascii.eqb_eq in Hh1. subst h1.
  destruct (span is_digit r2) as [g2 r3] eqn:H2.
  destruct g2 as [|c2 g2]; [discriminate|].
  destruct r3 as [|h2 r4]; [discriminate|].
  destruct (Ascii.eqb h2 hyphen) eqn:Hh2; [|discriminate].
  apply Ascii.eqb_eq in Hh2. subst h2.
  destruct (span _ r4) as [g3 rest] eqn:H3.
  destruct g3 as [|c3 g3]; [discriminate|].
  intros [= <-].
  exists (String c1 g1), (String c2 g2), (String c3 g3), rest.
  pose proof (span_append _ _ _ _ H1) as E1.
  pose proof (span_append _ _ _ _ H2) as E2.
  pose proof (span_append _ _ _ _ H3) as E3.
  destruct (span_every _ _ _ _ H1) as [D1 _].
  destruct (span_every _ _ _ _ H2) as [D2 _].
  destruct (span_every _ _ _ _ H3) as [D3 _].
  repeat split; try discriminate; try assumption.
  rewrite E1, E2, E3, !append_assoc, !hyphen_append. reflexivity.
Qed.

(** X5: whatever the thread identifier, the pattern either finds nothing or
    finds three groups, of which the first two are runs of digits that are
    not empty and the third is not empty and holds no line feed; the match
    is [g1-g2-g3] and occurs in the identifier. *)
Theorem thread_groups (s : string) :
  threadRegexp_FindStringSubmatch s = []
  \/ exists g1 g2 g3,
       threadRegexp_FindStringSubmatch s = [g1 +:+ "-" +:+ g2 +:+ "-" +:+ g3; g1; g2; g3]
       /\ substring_of (g1 +:+ "-" +:+ g2 +:+ "-" +:+ g3) s
       /\ g1 <> "" /\ every is_digit g1 = true
       /\ g2 <> "" /\ every is_digit g2 = true
       /\ g3 <> "" /\ every not_newline g3 = true.
Proof.
  assert (Hhere : forall t m, threadRegexp_match_here t = Some m ->
    exists g1 g2 g3,
      m = [g1 +:+ "-" +:+ g2 +:+ "-" +:+ g3; g1; g2; g3]
      /\ substring_of (g1 +:+ "-" +:+ g2 +:+ "-" +:+ g3) t
      /\ g1 <> "" /\ every is_digit g1 = true
      /\ g2 <> "" /\ every is_digit g2 = true
      /\ g3 <> "" /\ every not_newline g3 = true).
  { intros t m H.
    destruct (threadRegexp_match_here_groups t m H)
      as (g1 & g2 & g3 & rest & -> & Ht & Hrest).
    exists g1, g2, g3. split; [reflexivity|]. split; [|exact Hrest].
    exists "", rest. exact Ht. }
  induction s as [|c s IH]; cbn [threadRegexp_FindStringSubmatch].
  - destruct (threadRegexp_match_here "") as [m|] eqn:H; [|now left].
    right. destruct (Hhere _ _ H) as (g1 & g2 & g3 & -> & Hrest). eauto.
  - destruct (threadRegexp_match_here (String c s)) as [m|] eqn:H.
    + right. destruct (Hhere _ _ H) as (g1 & g2 & g3 & -> & Hrest). eauto.
    + destruct IH as [IH | (g1 & g2 & g3 & Hm & (pre & post & Hs) & Hrest)];
        [now left | right].
      exists g1, g2, g3. split; [exact Hm|]. split; [|exact Hrest].
      exists (String c pre), post. now rewrite Hs.
Qed.

(** An identifier made of a run of digits, a hyphen, a run of digits, a
    hyphen and a slug on one line is taken apart into exactly these three
    parts. *)
Theorem thread_well_formed (d1 d2 slug_part : string) :
  d1 <> "" -> every is_digit d1 = true ->
  d2 <> "" -> every is_digit d2 = true ->
  slug_part <> "" -> every not_newline slug_part = true ->
  threadRegexp_FindStringSubmatch (d1 +:+ "-" +:+ d2 +:+ "-" +:+ slug_part)
  = [d1 +:+ "-" +:+ d2 +:+ "-" +:+ slug_part; d1; d2; slug_part].
Proof.
  intros N1 D1 N2 D2 N3 D3.
  apply FindStringSubmatch_here. unfold threadRegexp_match_here.
  rewrite !hyphen_append.
  rewrite (span_prefix is_digit d1 (String hyphen (d2 +:+ String hyphen slug_part)) D1)
    by (now intros c [= <-]).
  destruct d1 as [|c1 d1]; [contradiction|].
  rewrite Ascii.eqb_refl.
  rewrite (span_prefix is_digit d2 (String hyphen slug_part) D2)
    by (now intros c [= <-]).
  destruct d2 as [|c2 d2]; [contradiction|].
  rewrite Ascii.eqb_refl.
  pose proof (span_prefix not_newline slug_part "" D3) as H3.
  rewrite append_empty_r in H3.
  change (span (fun c => negb (Ascii.eqb c newline)) slug_part)
    with (span not_newline slug_part).
  rewrite H3 by discriminate.
  destruct slug_part as [|c3 g3]; [contradiction|].
  reflexivity.
Qed.

Lemma thread_well_formed_witness :
  threadRegexp_FindStringSubmatch ("2016" +:+ "-" +:+ "10" +:+ "-" +:+ "my-post")
  = ["2016" +:+ "-" +:+ "10" +:+ "-" +:+ "my-post"; "2016"; "10"; "my-post"].
Proof.
  apply (thread_well_formed "2016" "10" "my-post");
    first [discriminate | reflexivity].
Defined.

(** ** When verification succeeds *)

Lemma bearer_match_iff (h tok : string) :
  bearerRegexp_FindStringSubmatch h = [h; tok]
  <-> exists b, (b = "B"%char \/ b = "b"%char)
        /\ h = String b ("earer " +:+ tok)
        /\ tok <> "" /\ every not_regexp_space tok = true.
Proof.
  split.
  - destruct h as [|b r]; [discriminate|].
    cbn [bearerRegexp_FindStringSubmatch].
    destruct ((Ascii.eqb b "B" || Ascii.eqb b "b") && HasPrefix r "earer ") eqn:Hhead;
      [|discriminate].
    apply andb_true_iff in Hhead as [Hb Hp].
    apply HasPrefix_spec in Hp as [t ->].
    replace (String.substring 6 (String.length ("earer " +:+ t)) ("earer " +:+ t))
      with t by (simpl; rewrite substring_all; [reflexivity | lia]).
    destruct (span (fun c => negb (is_regexp_space c)) t) as [g rest] eqn:Hspan.
    pose proof (span_append _ _ _ _ Hspan) as Happ.
    destruct (span_every _ _ _ _ Hspan) as [Hevery _].
    destruct g as [|c g]; [discriminate|]. destruct rest; [|discriminate].
    rewrite append_empty_r in Happ. subst t. intros [= <-].
    exists b. repeat split; [|discriminate|exact Hevery].
    apply orb_true_iff in Hb as [Hb|Hb]; apply Ascii.eqb_eq in Hb; auto.
  - intros (b & Hb & -> & Htok & Hevery).
    cbn [bearerRegexp_FindStringSubmatch].
    assert (Hhead : (Ascii.eqb b "B" || Ascii.eqb b "b")
                    && HasPrefix ("earer " +:+ tok) "earer " = true).
    { apply andb_true_iff. split.
      - destruct Hb as [-> | ->]; reflexivity.
      - apply HasPrefix_spec. now exists tok. }
    rewrite Hhead.
    replace (String.substring 6 (String.length ("earer " +:+ tok)) ("earer " +:+ tok))
      with tok by (simpl; rewrite substring_all; [reflexivity | lia]).
    pose proof (span_prefix not_regexp_space tok "" Hevery) as Hspan.
    rewrite append_empty_r in Hspan.
    change (span (fun c => negb (is_regexp_space c)) tok)
      with (span not_regexp_space tok).
    rewrite Hspan by discriminate.
    destruct tok; [contradiction | reflexivity].
Qed.

(** X7: [verify] returns true exactly when the Authorization header is
    [Bearer ] or [bearer ] followed by a token without white space, the
    token decodes, names HS256, carries valid claims and a signature HS256
    accepts under the configured secret, and its [email] claim is the
    string [email].  Any other scheme spelling (such as [BEARER]) and any
    white space inside or after the token give false. *)
Theorem verify_true_iff (E : Env) (email : string) (r : Request) :
  verify E email r = Ok true
  <-> exists b tok token,
        (b = "B"%char \/ b = "b"%char)
        /\ Header_Get (Request_Header r) "Authorization" = String b ("earer " +:+ tok)
        /\ tok <> "" /\ every not_regexp_space tok = true
        /\ jwt_ParseUnverified E tok = Val token
        /\ Method_Alg token = "HS256"
        /\ MapClaims_Valid E (Claims token) = true
        /\ SigningMethod_Verify E "HS256" (SigningString token) (Signature token)
             (JWT_Secret (config E)) = true
        /\ Claims token !! "email" = Some (JString email).
Proof.
  split.
  - intros Hv.
    destruct (bearer_match_shape (Header_Get (Request_Header r) "Authorization"))
      as [Hnil | (b & tok & _ & _ & _ & Hr)].
    { rewrite (verify_unmatched E email r Hnil) in Hv. discriminate Hv. }
    rewrite (verify_matched E email r tok Hr) in Hv.
    apply bearer_match_iff in Hr as (b' & Hb & Hh & Ht & Hevery).
    destruct (jwt_ParseUnverified E tok) as [token|err] eqn:Hparse; [|discriminate Hv].
    destruct (String.eqb (Method_Alg token) "HS256") eqn:Halg; [|discriminate Hv].
    apply String.eqb_eq in Halg.
    destruct (MapClaims_Valid E (Claims token)) eqn:Hvalid; [|discriminate Hv].
    cbn [andb] in Hv.
    destruct (SigningMethod_Verify E _ _ _ _) eqn:Hsig; [|discriminate Hv].
    destruct (Claims token !! "email") as [[| | |claimed| |]|] eqn:Hclaim;
      try discriminate Hv.
    injection Hv as Heq. apply String.eqb_eq in Heq. subst claimed.
    exists b', tok, token. rewrite Halg in Hsig. repeat split; assumption.
  - intros (b & tok & token & Hb & Hh & Ht & Hevery & Hparse & Halg & Hvalid & Hsig & Hclaim).
    assert (Hr : bearerRegexp_FindStringSubmatch
                   (Header_Get (Request_Header r) "Authorization")
                 = [Header_Get (Request_Header r) "Authorization"; tok]).
    { apply bearer_match_iff. exists b. repeat split; assumption. }
    rewrite (verify_matched E email r tok Hr), Hparse, Halg, Hvalid, Hsig, Hclaim.
    cbn [String.eqb andb]. now rewrite String.eqb_refl.
Qed.

(** ** What a filed comment carries *)

(** X8: when a request passes every gate, the thread and the repository are
    well formed and the store answers every call, the handler returns with
    status 200 and, as the whole body, the public view of the comment as it
    was stamped (address, date, identifier and verification outcome set by
    the server); the clock was read three times after the gates. *)
Theorem filed_comment_response (E : Env) (req : Request) (entry : EntryData)
    (comment : RawComment) (owner repo : string) (rest : list string)
    (master : Branch) :
  reaches_verification E req entry comment ->
  threadRegexp_FindStringSubmatch (Thread entry) <> [] ->
  Split (API_Repository (config E)) "/" = owner :: repo :: rest ->
  GetBranch_answer (client E) = (Some master, None) ->
  CreateRef_answer (client E) = None ->
  CreateFile_answer (client E) = None ->
  PullRequests_Create_answer (client E) = None ->
  exists verified,
    verify E (Email comment) req = Ok verified
    /\ fst (serve E req) = Ok tt
    /\ w (snd (serve E req)) = filed_response E (stamped E req comment verified)
    /\ ticks (snd (serve E req)) = (3 + ticks (after_gates E))%nat.
Proof.
  intros Hr Hm Hsplit Hb Hc Hf Hp.
  destruct (serve_stamped E req entry comment Hr) as (v & Hv & Hs).
  exists v. split; [exact Hv|]. rewrite Hs.
  destruct (threadRegexp_shape (Thread entry)) as [Hnil | (g1 & g2 & g3 & Hg)];
    [contradiction|].
  destruct (file_stamped_run E entry (stamped E req comment v) _ _ _ _
              (S (S (ticks (after_gates E)))) Hg) as (pathname & ->).
  rewrite Hsplit. unfold filed_response.
  destruct (RequireApproval (getSettings E) || IsSuspicious E (stamped E req comment v)).
  - unfold reviewed. run_all. rewrite Hb. run_all. rewrite Hc. run_all.
    rewrite Hf. run_all. rewrite Hp. run_all. repeat split.
  - unfold direct. run_all. rewrite Hf. run_all. repeat split.
Qed.

Lemma filed_comment_response_witness :
  exists verified,
    verify demo_env (Email demo_comment) demo_request = Ok verified
    /\ fst (serve demo_env demo_request) = Ok tt
    /\ w (snd (serve demo_env demo_request))
       = filed_response demo_env (stamped demo_env demo_request demo_comment verified)
    /\ ticks (snd (serve demo_env demo_request)) = (3 + ticks (after_gates demo_env))%nat.
Proof.
  apply (filed_comment_response demo_env demo_request demo_entry demo_comment
           "netlify" "gotell" [] demo_master);
    try reflexivity.
  - apply demo_reaches_verification; try reflexivity. now left.
  - vm_compute. discriminate.
Defined.

(** X9: the address, identifier, date and verified flag a request body
    carries are ignored.  Two decodings of the body that agree on author,
    email, URL and body text make the handler do the same, whatever they say
    about the other four fields. *)
Theorem server_fields_override (E : Env) (req : Request)
    (d1 d2 : string -> GoErr RawComment) (c1 c2 : RawComment) :
  d1 (Request_Body req) = Val c1 ->
  d2 (Request_Body req) = Val c2 ->
  same_submission c1 c2 ->
  serve (with_decoder E d1) req = serve (with_decoder E d2) req.
Proof.
  intros H1 H2 (Ha & He & Hu & Hb).
  destruct c1 as [a1 e1 u1 b1 ip1 id1 dt1 v1], c2 as [a2 e2 u2 b2 ip2 id2 dt2 v2].
  cbn [Author Email URL Body] in *. subst a2 e2 u2 b2.
  unfold serve, postComment.
  cbn [json_Decode with_decoder getSettings entryData].
  rewrite H1, H2. reflexivity.
Qed.

Lemma server_fields_override_witness :
  serve (with_decoder demo_env (fun _ => Val demo_comment)) demo_request
  = serve (with_decoder demo_env (fun _ => Val forged_comment)) demo_request.
Proof.
  apply (server_fields_override demo_env demo_request
           (fun _ => Val demo_comment) (fun _ => Val forged_comment)
           demo_comment forged_comment);
    repeat split.
Defined.

(** ** Every request, by cause *)

Lemma serve_entry_error (E : Env) (req : Request) (err : string) :
  ~ In (Request_RemoteAddr req) (BannedIPs (getSettings E)) ->
  entryData E (Request_URL_Path req) = Err err ->
  serve E req
  = (Ok tt, mkHandlerState (json_error E ("Unable to read entry data: " +:+ err) 400) [] 0).
Proof.
  intros Hip Hentry. apply banned_ip_test_false in Hip.
  unfold serve, postComment.
  cbv [bind Header_Set modify_w start no_response w calls ticks header status body].
  rewrite Hip, Hentry. reflexivity.
Qed.

Lemma serve_decode_error (E : Env) (req : Request) (entry : EntryData) (err : string) :
  ~ In (Request_RemoteAddr req) (BannedIPs (getSettings E)) ->
  entryData E (Request_URL_Path req) = Val entry ->
  thread_open E entry ->
  json_Decode E (Request_Body req) = Err err ->
  serve E req
  = (Ok tt, mkHandlerState (json_error E ("Error decoding JSON body: " +:+ err) 422) []
              (ticks (after_gates E))).
Proof.
  intros Hip Hentry Hopen Hdec. apply banned_ip_test_false in Hip.
  unfold serve, postComment, after_gates.
  cbv [bind Header_Set modify_w start no_response w calls ticks header status body].
  rewrite Hip, Hentry.
  destruct (TimeLimit (getSettings E) =? 0) eqn:Hlim; cbn [negb].
  - cbv [ret]. rewrite Hdec. reflexivity.
  - cbv [bind ret time_Now ticks w calls].
    destruct Hopen as [H0|Hle]; [apply Z.eqb_neq in Hlim; contradiction|].
    apply Z.ltb_ge in Hle. rewrite Hle, Hdec. reflexivity.
Qed.

Lemma mention_test_none (st : list string) (comment : RawComment) :
  existsb (mentions comment) st = false ->
  forall b, In b st -> ~ Mentions comment b.
Proof.
  intros Hex b Hin Hm.
  assert (Ht : existsb (mentions comment) st = true) by (apply mention_test; eauto).
  congruence.
Qed.

(** Every request ends at one of the gates or goes on to file the stamped
    comment. *)
Lemma serve_gate (E : Env) (req : Request) : Gate E req (serve E req).
Proof.
  destruct (existsb (fun ip => String.eqb (Request_RemoteAddr req) ip)
              (BannedIPs (getSettings E))) eqn:Hip.
  { apply banned_ip_test in Hip. rewrite (serve_banned_ip E req Hip).
    now constructor. }
  assert (Hnot : ~ In (Request_RemoteAddr req) (BannedIPs (getSettings E))).
  { intros Hin. apply banned_ip_test in Hin. congruence. }
  destruct (entryData E (Request_URL_Path req)) as [entry|err] eqn:Hentry.
  2:{ rewrite (serve_entry_error E req err Hnot Hentry). now constructor. }
  assert (Hopen : thread_open E entry
                  \/ TimeLimit (getSettings E) <> 0
                     /\ TimeLimit (getSettings E) < Time_Sub (clock E 0) (CreatedAt entry)).
  { unfold thread_open. lia. }
  destruct Hopen as [Hopen | [Hlim Hold]].
  2:{ rewrite (serve_closed E req entry Hnot Hentry Hlim Hold).
      now apply Gate_closed with (entry := entry). }
  destruct (json_Decode E (Request_Body req)) as [comment|err] eqn:Hdec.
  2:{ rewrite (serve_decode_error E req entry err Hnot Hentry Hopen Hdec).
      now apply Gate_decode with (entry := entry). }
  assert (Hd : decoded E req entry comment) by (repeat split; assumption).
  destruct (existsb (mentions comment) (BannedEmails (getSettings E))) eqn:He.
  { apply mention_test in He. rewrite (serve_email_banned E req entry comment Hd He).
    now apply Gate_email with (entry := entry) (comment := comment). }
  pose proof (mention_test_none _ _ He) as Hne.
  destruct (existsb (mentions comment) (BannedKeywords (getSettings E))) eqn:Hk.
  { apply mention_test in Hk.
    rewrite (serve_keyword_banned E req entry comment Hd Hne Hk).
    now apply Gate_keyword with (entry := entry) (comment := comment). }
  pose proof (mention_test_none _ _ Hk) as Hnk.
  assert (Hr : reaches_verification E req entry comment) by (repeat split; assumption).
  destruct (serve_stamped E req entry comment Hr) as (v & Hv & ->).
  now apply Gate_passed.
Qed.

Lemma Split_nonempty (s sep : string) : Split s sep <> [].
Proof.
  unfold Split, genSplit. cbn [Z.eqb].
  destruct (Z.to_nat _) as [|k]; cbn [genSplit_loop]; [discriminate|].
  destruct (Index s sep <? 0); discriminate.
Qed.

(** Filing ends in one of seven ways. *)
Lemma file_stamped_cases (E : Env) (entry : EntryData) (c : RawComment) (n : nat) :
  Filed E entry c n (file_stamped E (getSettings E) entry c (nothing_written n [])).
Proof.
  destruct (threadRegexp_shape (Thread entry)) as [Hnil | (g1 & g2 & g3 & Hg)].
  { unfold file_stamped. rewrite Hnil. now constructor. }
  assert (Hm : threadRegexp_FindStringSubmatch (Thread entry) <> [])
    by (rewrite Hg; discriminate).
  destruct (file_stamped_run E entry c _ _ _ _ n Hg) as (pathname & ->).
  destruct (Split (API_Repository (config E)) "/") as [|owner [|repo rest]] eqn:Hsplit.
  { now destruct (Split_nonempty (API_Repository (config E)) "/"). }
  { assert (Hpanic : forall b : bool,
             (if b then reviewed E [owner] pathname (json_Marshal_RawComment E c)
                         (ToLower (TrimSpace (Body c))) c
              else direct E [owner] pathname (json_Marshal_RawComment E c)
                     (ToLower (TrimSpace (Body c))) c) (nothing_written (S n) [])
             = (Panic "index out of range", nothing_written (S n) []))
      by (intros []; reflexivity).
    rewrite Hpanic. now apply Filed_no_repository with (owner := owner). }
  destruct (RequireApproval (getSettings E) || IsSuspicious E c) eqn:Hreview.
  - unfold reviewed. run_all.
    destruct (GetBranch_answer (client E)) as [[master|] err] eqn:Hb.
    2:{ now apply Filed_nil_branch with (rest := rest) (err := err). }
    assert (Hfail : forall k message, review_failure E k = Some message ->
              Filed E entry c n
                (Ok tt, mkHandlerState (json_error E message 500)
                   (firstn k (review_calls owner repo pathname (json_Marshal_RawComment E c)
                                (ToLower (TrimSpace (Body c))) c master)) (S n))).
    { intros k message Hk.
      apply Filed_review_failed with (rest := rest); try assumption.
      now rewrite Hb. }
    destruct err as [err|].
    { run_all. apply (Hfail 1%nat). unfold review_failure. now rewrite Hb. }
    run_all. destruct (CreateRef_answer (client E)) as [err|] eqn:Hc.
    { run_all. apply (Hfail 2%nat). unfold review_failure. now rewrite Hb, Hc. }
    run_all. destruct (CreateFile_answer (client E)) as [err|] eqn:Hf.
    { run_all. apply (Hfail 3%nat). unfold review_failure. now rewrite Hb, Hc, Hf. }
    run_all. destruct (PullRequests_Create_answer (client E)) as [err|] eqn:Hp.
    { run_all. apply (Hfail 4%nat). unfold review_failure. now rewrite Hb, Hc, Hf, Hp. }
    run_all. now apply Filed_reviewed with (rest := rest).
  - unfold direct. run_all.
    destruct (CreateFile_answer (client E)) as [err|] eqn:Hf; run_all.
    + now apply Filed_direct_failed with (rest := rest).
    + now apply Filed_direct with (rest := rest).
Qed.

(** ** What every response has in common *)

Ltac by_outcome E req :=
  let entry := fresh "entry" in
  let comment := fresh "comment" in
  let verified := fresh "verified" in
  let Hr := fresh "Hreach" in
  let Hv := fresh "Hverify" in
  destruct (serve_gate E req)
    as [ ? | ? ? ? | ? ? ? ? ? | ? ? ? ? ? ? | ? ? ? ? | ? ? ? ? ?
       | entry comment verified Hr Hv ];
  [ | | | | | |
    destruct (file_stamped_cases E entry (stamped E req comment verified)
                (S (S (ticks (after_gates E))))) ].

(** X10: whatever the request and however the handler ends, even when it
    panics, the response header [Content-Type] is [application/json]. *)
Theorem content_type_is_json (E : Env) (req : Request) :
  header (w (snd (serve E req))) !! "Content-Type" = Some ["application/json"].
Proof. by_outcome E req; reflexivity. Qed.

(** X11: the handler returns normally exactly when it has written a
    response: then the status is one of 200, 400, 401, 422 and 500; when it
    panics, no status and no byte of the body were written. *)
Theorem returns_iff_responds (E : Env) (req : Request) :
  match fst (serve E req) with
  | Ok _ =>
      exists code, status (w (snd (serve E req))) = Some code
                   /\ In code [200; 400; 401; 422; 500]
  | Panic _ =>
      status (w (snd (serve E req))) = None /\ body (w (snd (serve E req))) = ""
  end.
Proof.
  by_outcome E req; cbn [fst snd w status body silent_ban json_error filed_response
                         nothing_written];
    first [ split; reflexivity
          | eexists; split; [reflexivity | simpl; tauto] ].
Qed.

(** X12: the store calls of a request are none, or the one [CreateFile] of
    the direct path, or the first one to four calls of the review path in
    their order: no request writes a file twice, and none opens a proposed
    change without having created the branch and written the file. *)
Theorem store_calls_shape (E : Env) (req : Request) :
  let ops := map op_of (calls (snd (serve E req))) in
  ops = [] \/ ops = [CreateFile]
  \/ exists k, (1 <= k <= 4)%nat /\ ops = firstn k review_ops.
Proof.
  cbv zeta.
  by_outcome E req; cbn [snd calls nothing_written map op_of]; auto.
  - right; right. exists 1%nat. split; [lia | reflexivity].
  - right; right. exists k.
    match goal with Hk : review_failure _ _ = Some _ |- _ =>
      destruct k as [|[|[|[|[|k]]]]]; try discriminate Hk
    end; (split; [lia | reflexivity]).
  - right; right. exists 4%nat. split; [lia | reflexivity].
Qed.

(** ** Nothing happens without its cause *)

(** X13: a store call is made only for a request that passed every gate:
    the address is not banned, the thread resolves and is open, the body
    decodes, nothing banned is mentioned, the thread identifier matches the
    pattern and the repository has an owner and a name. *)
Theorem store_calls_need_every_gate (E : Env) (req : Request) :
  calls (snd (serve E req)) <> [] ->
  exists entry comment owner repo rest,
    reaches_verification E req entry comment
    /\ threadRegexp_FindStringSubmatch (Thread entry) <> []
    /\ Split (API_Repository (config E)) "/" = owner :: repo :: rest.
Proof.
  by_outcome E req; cbn [snd calls nothing_written]; intros Hcalls;
    try (now destruct Hcalls);
    exists entry, comment, owner, repo, rest; auto.
Qed.

Lemma store_calls_need_every_gate_witness :
  exists entry comment owner repo rest,
    reaches_verification demo_env demo_request entry comment
    /\ threadRegexp_FindStringSubmatch (Thread entry) <> []
    /\ Split (API_Repository (config demo_env)) "/" = owner :: repo :: rest.
Proof.
  apply (store_calls_need_every_gate demo_env demo_request).
  vm_compute. discriminate.
Defined.

(** X14: status 401 is written exactly when the address is not banned, the
    thread resolves, the time limit is not zero and the age of the thread is
    strictly above it; a thread whose age equals the limit is open. *)
Theorem closed_iff (E : Env) (req : Request) :
  status (w (snd (serve E req))) = Some 401
  <-> ~ In (Request_RemoteAddr req) (BannedIPs (getSettings E))
      /\ exists entry,
           entryData E (Request_URL_Path req) = Val entry
           /\ TimeLimit (getSettings E) <> 0
           /\ TimeLimit (getSettings E) < Time_Sub (clock E 0) (CreatedAt entry).
Proof.
  split.
  - by_outcome E req; cbn [snd w status nothing_written silent_ban json_error
                           filed_response];
      intros Hstatus; try discriminate Hstatus.
    split; [assumption | eauto].
  - intros (Hip & entry & Hentry & Hlim & Hold).
    now rewrite (serve_closed E req entry Hip Hentry Hlim Hold).
Qed.

(** X15: the [X-Banned] header never appears without cause.  When it is
    set, it names one category, the response is the silent rejection and no
    store call was made; [IP-Banned] means the address is in the list,
    [Email-Banned] that the decoded comment mentions a banned email, and
    [Keyword-Banned] that it mentions a banned keyword and no banned
    email. *)
Theorem ban_marker_has_cause (E : Env) (req : Request) (v : list string) :
  header (w (snd (serve E req))) !! "X-Banned" = Some v ->
  exists category,
    v = [category]
    /\ serve E req
       = (Ok tt, mkHandlerState (silent_ban category) [] (ticks (snd (serve E req))))
    /\ (category = "IP-Banned"
          /\ In (Request_RemoteAddr req) (BannedIPs (getSettings E))
        \/ category = "Email-Banned"
          /\ (exists entry comment b,
                decoded E req entry comment
                /\ In b (BannedEmails (getSettings E)) /\ Mentions comment b)
        \/ category = "Keyword-Banned"
          /\ (exists entry comment b,
                decoded E req entry comment
                /\ (forall e, In e (BannedEmails (getSettings E)) -> ~ Mentions comment e)
                /\ In b (BannedKeywords (getSettings E)) /\ Mentions comment b)).
Proof.
  by_outcome E req; cbn [snd w header ticks nothing_written silent_ban json_error
                         filed_response];
    intros Hv; try (vm_compute in Hv; discriminate Hv).
  - exists "IP-Banned". injection Hv as <-. repeat split. left. now split.
  - exists "Email-Banned". injection Hv as <-. repeat split. right; left.
    split; [reflexivity|].
    match goal with H : exists b, _ |- _ => destruct H as (b & Hin & Hm) end.
    eauto 6.
  - exists "Keyword-Banned". injection Hv as <-. repeat split. right; right.
    split; [reflexivity|].
    match goal with H : exists b, _ |- _ => destruct H as (b & Hin & Hm) end.
    eauto 8.
Qed.

Lemma ban_marker_has_cause_witness :
  exists category,
    ["Keyword-Banned"] = [category]
    /\ serve demo_env spam_request
       = (Ok tt, mkHandlerState (silent_ban category) []
                   (ticks (snd (serve demo_env spam_request))))
    /\ (category = "IP-Banned"
          /\ In (Request_RemoteAddr spam_request) (BannedIPs (getSettings demo_env))
        \/ category = "Email-Banned"
          /\ (exists entry comment b,
                decoded demo_env spam_request entry comment
                /\ In b (BannedEmails (getSettings demo_env)) /\ Mentions comment b)
        \/ category = "Keyword-Banned"
          /\ (exists entry comment b,
                decoded demo_env spam_request entry comment
                /\ (forall e, In e (BannedEmails (getSettings demo_env))
                              -> ~ Mentions comment e)
                /\ In b (BannedKeywords (getSettings demo_env)) /\ Mentions comment b)).
Proof.
  apply (ban_marker_has_cause demo_env spam_request ["Keyword-Banned"]).
  vm_compute. reflexivity.
Defined.

(** X16: the handler panics exactly when a request passes every gate and
    either the thread identifier does not match the pattern, or the
    configured repository holds no slash, or the comment needs review and
    the store answers [GetBranch] with a nil branch.  Nothing a submitter
    sends to a well-formed deployment with a healthy store makes it
    panic. *)
Theorem panics_iff (E : Env) (req : Request) :
  (exists msg, fst (serve E req) = Panic msg)
  <-> exists entry comment verified,
        reaches_verification E req entry comment
        /\ verify E (Email comment) req = Ok verified
        /\ (threadRegexp_FindStringSubmatch (Thread entry) = []
            \/ (exists owner, Split (API_Repository (config E)) "/" = [owner])
            \/ RequireApproval (getSettings E)
               || IsSuspicious E (stamped E req comment verified) = true
               /\ fst (GetBranch_answer (client E)) = None).
Proof.
  split.
  - intros [msg Hpanic]. revert Hpanic.
    by_outcome E req; cbn [fst]; intros Hpanic; try discriminate Hpanic;
      exists entry, comment, verified; (split; [assumption|]); (split; [assumption|]).
    + now left.
    + right; left. eauto.
    + right; right. split; [assumption|].
      match goal with H : GetBranch_answer _ = _ |- _ => now rewrite H end.
  - intros (entry & comment & v & Hr & Hv & Hcause).
    destruct (serve_stamped E req entry comment Hr) as (v' & Hv' & ->).
    assert (v' = v) by congruence. subst v'.
    destruct (file_stamped_cases E entry (stamped E req comment v)
                (S (S (ticks (after_gates E)))));
      cbn [fst]; eauto;
      exfalso;
      destruct Hcause as [Hnil | [[o Ho] | [Hrev Hb]]];
      try congruence;
      match goal with
      | H : GetBranch_answer _ = _ |- _ => rewrite H in Hb; discriminate Hb
      | _ => idtac
      end.
Qed.

(** X17: status 500 is written only after a store call was made and
    answered with an error. *)
Theorem server_error_has_cause (E : Env) (req : Request) :
  status (w (snd (serve E req))) = Some 500 ->
  calls (snd (serve E req)) <> []
  /\ (snd (GetBranch_answer (client E)) <> None
      \/ CreateRef_answer (client E) <> None
      \/ CreateFile_answer (client E) <> None
      \/ PullRequests_Create_answer (client E) <> None).
Proof.
  by_outcome E req; cbn [snd w status calls nothing_written silent_ban json_error
                         filed_response];
    intros Hstatus; try discriminate Hstatus.
  - split; [discriminate|]. right; right; left. congruence.
  - match goal with Hk : review_failure _ _ = Some _ |- _ =>
      unfold review_failure in Hk;
      destruct k as [|[|[|[|[|k]]]]]; try discriminate Hk;
      (split; [discriminate|]);
      destruct (snd (GetBranch_answer (client E))); try discriminate Hk;
      try (left; discriminate);
      destruct (CreateRef_answer (client E)); try discriminate Hk;
      try (right; left; discriminate);
      destruct (CreateFile_answer (client E)); try discriminate Hk;
      try (right; right; left; discriminate);
      destruct (PullRequests_Create_answer (client E)); try discriminate Hk;
      right; right; right; discriminate
    end.
Qed.

Lemma server_error_has_cause_witness :
  calls (snd (serve write_failure_env demo_request)) <> []
  /\ (snd (GetBranch_answer (client write_failure_env)) <> None
      \/ CreateRef_answer (client write_failure_env) <> None
      \/ CreateFile_answer (client write_failure_env) <> None
      \/ PullRequests_Create_answer (client write_failure_env) <> None).
Proof.
  apply (server_error_has_cause write_failure_env demo_request).
  vm_compute. reflexivity.
Defined.

(** X18: an empty string in the list of banned emails or of banned keywords
    bans every comment that decodes, since every string contains it. *)
Theorem empty_entry_bans_all (E : Env) (req : Request) (entry : EntryData)
    (comment : RawComment) :
  decoded E req entry comment ->
  In "" (BannedEmails (getSettings E)) \/ In "" (BannedKeywords (getSettings E)) ->
  exists category,
    (category = "Email-Banned" \/ category = "Keyword-Banned")
    /\ serve E req
       = (Ok tt, mkHandlerState (silent_ban category) [] (ticks (after_gates E))).
Proof.
  intros Hd Hin.
  assert (Hm : Mentions comment "") by (left; now exists "", (Email comment)).
  destruct (existsb (mentions comment) (BannedEmails (getSettings E))) eqn:He.
  - apply mention_test in He. exists "Email-Banned".
    split; [now left | now apply serve_email_banned with (entry := entry) (comment := comment)].
  - pose proof (mention_test_none _ _ He) as Hne.
    destruct Hin as [Hin | Hin]; [now destruct (Hne "" Hin)|].
    exists "Keyword-Banned". split; [now right|].
    apply serve_keyword_banned with (entry := entry) (comment := comment); eauto.
Qed.

Lemma empty_entry_bans_all_witness :
  exists category,
    (category = "Email-Banned" \/ category = "Keyword-Banned")
    /\ serve catch_all_env demo_request
       = (Ok tt, mkHandlerState (silent_ban category) [] (ticks (after_gates catch_all_env))).
Proof.
  apply (empty_entry_bans_all catch_all_env demo_request demo_entry demo_comment).
  - repeat split.
    + simpl. intros [H|[]]. discriminate H.
    + right. vm_compute. discriminate.
  - right. simpl. right. left. reflexivity.
Defined.

(** ** Behind the middleware *)

(** X19: a POST whose [Content-Type] header is not exactly
    [application/json] is refused by the middleware with status 422 and a
    plain-text message before the handler runs: whatever its address, path
    and body, no ban marker is set and no store call is made.  With exactly
    that content type the handler runs, one clock reading later. *)
Theorem json_content_type_required (E : Env) (req : Request) :
  (Header_Get (Request_Header req) "Content-Type" <> "application/json" ->
   post_route E req start = (Ok tt, mkHandlerState not_json_response [] 1))
  /\ (Header_Get (Request_Header req) "Content-Type" = "application/json" ->
      post_route E req start = postComment E req behind_middleware).
Proof.
  unfold post_route, through_middleware, timeRequest, jsonTypeRequired.
  split; intros Hct.
  - apply String.eqb_neq in Hct.
    cbv [bind ret time_Now start no_response w calls ticks]. rewrite Hct.
    reflexivity.
  - cbv [bind ret time_Now start no_response w calls ticks]. rewrite Hct.
    reflexivity.
Qed.

Lemma json_content_type_required_witness :
  post_route demo_env untyped_banned_request start
  = (Ok tt, mkHandlerState not_json_response [] 1)
  /\ post_route demo_env typed_request start
     = postComment demo_env typed_request behind_middleware.
Proof.
  split.
  - apply (proj1 (json_content_type_required demo_env untyped_banned_request)).
    vm_compute. discriminate.
  - apply (proj2 (json_content_type_required demo_env typed_request)).
    reflexivity.
Defined.

(** X20: the log handler finds the time [timeRequest] stored, whatever the
    context held before: run on that context at a later point it does not
    panic and reports the status written so far (0 when none) and, as the
    duration, the clock reading it takes minus the one [timeRequest] took.
    On a context that holds no time under the key it panics. *)
Theorem log_after_timing (E : Env) (ctx : list (string * ContextValue))
    (method : string) (req : Request) (st later : HandlerState) :
  (exists timed,
     timeRequest E ctx st
     = (Ok (Some timed), mkHandlerState (w st) (calls st) (S (ticks st)))
     /\ logHandler E timed method req later
        = (Ok (mkLogFields method (Request_URL_Path req)
                 (default 0 (status (w later)))
                 (Time_Sub (clock E (ticks later)) (clock E (ticks st)))),
           mkHandlerState (w later) (calls later) (S (ticks later))))
  /\ (Context_Value ctx "_gotell_timing" = None ->
      exists msg, logHandler E ctx method req later = (Panic msg, later))
  /\ (forall s, Context_Value ctx "_gotell_timing" = Some (StringValue s) ->
      exists msg, logHandler E ctx method req later = (Panic msg, later)).
Proof.
  split; [|split].
  - eexists. split; [reflexivity|]. reflexivity.
  - intros Hnone. unfold logHandler. rewrite Hnone. eexists. reflexivity.
  - intros s Hs. unfold logHandler. rewrite Hs. eexists. reflexivity.
Qed.

Lemma log_after_timing_witness :
  (exists msg, logHandler demo_env [] "POST" demo_request start = (Panic msg, start))
  /\ exists msg,
       logHandler demo_env [("_gotell_timing", StringValue "noon")] "POST"
         demo_request start = (Panic msg, start).
Proof.
  split.
  - apply (proj1 (proj2 (log_after_timing demo_env [] "POST" demo_request start start))).
    reflexivity.
  - apply (proj2 (proj2 (log_after_timing demo_env
                           [("_gotell_timing", StringValue "noon")]
                           "POST" demo_request start start)) "noon").
    reflexivity.
Defined.

(** X21: the index route answers every GET, with or without a content type,
    with status 200, the JSON content type and the encoded map of the
    name, the description and the server's version. *)
Theorem index_route_response (E : Env) (encode : gmap string string -> string)
    (version : string) (req : Request) :
  exists obj : gmap string string,
    index_route E encode version req start
    = (Ok tt, mkHandlerState (mkResponseWriter json_header (Some 200) (encode obj)) [] 1)
    /\ obj !! "version" = Some version
    /\ obj !! "name" = Some "GoTell"
    /\ dom obj = {["version"; "name"; "description"]}.
Proof.
  eexists. split; [reflexivity|].
  split; [apply lookup_insert_eq|].
  split; [reflexivity|].
  rewrite !dom_insert_L, dom_empty_L. set_solver.
Qed.

(** ** The repository setting *)

Lemma Index_slash_none (s : string) : every not_slash s = true -> Index s "/" = -1.
Proof.
  induction s as [|c s IH]; [reflexivity|].
  simpl. rewrite andb_true_iff. unfold not_slash at 1. rewrite negb_true_iff.
  intros [Hc Hs]. rewrite Hc, (IH Hs). reflexivity.
Qed.

Lemma Index_slash_first (a b : string) :
  every not_slash a = true -> Index (a +:+ String "/" b) "/" = len_ a.
Proof.
  induction a as [|c a IH].
  - intros _. reflexivity.
  - change (String c a +:+ String "/" b) with (String c (a +:+ String "/" b)).
    simpl. rewrite andb_true_iff. unfold not_slash at 1. rewrite negb_true_iff.
    intros [Hc Ha]. rewrite Hc, (IH Ha). cbn [andb].
    pose proof (len_nonneg a) as Hlen.
    destruct (len_ a <? 0) eqn:Hneg; [apply Z.ltb_lt in Hneg; lia|].
    unfold len_. simpl String.length. lia.
Qed.

Lemma substring_prefix (a b : string) :
  String.substring 0 (String.length a) (a +:+ b) = a.
Proof.
  induction a as [|c a IH]; [now destruct b|].
  change (String c a +:+ b) with (String c (a +:+ b)). simpl. now rewrite IH.
Qed.

Lemma substring_skip (a : string) (c : ascii) (b : string) (m : nat) :
  String.substring (S (String.length a)) m (a +:+ String c b) = String.substring 0 m b.
Proof.
  induction a as [|x a IH]; [reflexivity|].
  change (String x a +:+ String c b) with (String x (a +:+ String c b)).
  simpl String.length. exact IH.
Qed.

Lemma length_append (a b : string) :
  String.length (a +:+ b) = (String.length a + String.length b)%nat.
Proof.
  induction a as [|c a IH]; [reflexivity|].
  change (String c a +:+ b) with (String c (a +:+ b)). simpl. now rewrite IH.
Qed.

(** X22: a repository setting [owner/repo], with no slash inside the owner
    or the name, is split into exactly the owner and the name the store
    calls are made with. *)
Theorem repository_split (owner repo : string) :
  every not_slash owner = true ->
  every not_slash repo = true ->
  Split (owner +:+ "/" +:+ repo) "/" = [owner; repo].
Proof.
  intros Ho Hr.
  change (owner +:+ "/" +:+ repo) with (owner +:+ String "/" repo).
  set (s := owner +:+ String "/" repo).
  assert (Hindex : Index s "/" = len_ owner) by now apply Index_slash_first.
  assert (Hlen : String.length s = S (String.length owner + String.length repo)).
  { unfold s. rewrite length_append. simpl. lia. }
  assert (Hrest : String.substring (Z.to_nat (Index s "/" + len_ "/")) (String.length s) s
                  = repo).
  { rewrite Hindex, Hlen. unfold len_.
    change (String.length "/") with 1%nat.
    replace (Z.to_nat (Z.of_nat (String.length owner) + Z.of_nat 1))
      with (S (String.length owner)) by lia.
    unfold s. rewrite substring_skip. apply substring_all. lia. }
  assert (Hcount : Count s "/" (String.length s) = 1).
  { rewrite Hlen at 1. cbn [Count]. rewrite Hrest, Hindex.
    pose proof (len_nonneg owner).
    destruct (len_ owner <? 0) eqn:Hneg; [apply Z.ltb_lt in Hneg; lia|].
    destruct (String.length owner + String.length repo)%nat; cbn [Count]; [reflexivity|].
    now rewrite (Index_slash_none repo Hr). }
  unfold Split, genSplit. cbn [Z.eqb Z.ltb Z.compare]. rewrite Hcount.
  pose proof (len_nonneg s) as Hs.
  assert (Hpos : 1 <= len_ s) by (unfold len_; rewrite Hlen; lia).
  destruct (len_ s + 1 <? 1 + 1) eqn:Hclamp; [apply Z.ltb_lt in Hclamp; lia|].
  change (Z.to_nat (1 + 1 - 1)) with 1%nat. cbn [genSplit_loop].
  rewrite Hrest, Hindex.
  pose proof (len_nonneg owner).
  destruct (len_ owner <? 0) eqn:Hneg; [apply Z.ltb_lt in Hneg; lia|].
  rewrite Z.add_0_r. unfold len_ at 1. rewrite Nat2Z.id.
  unfold s. now rewrite substring_prefix.
Qed.

Lemma repository_split_witness :
  Split ("netlify" +:+ "/" +:+ "gotell") "/" = ["netlify"; "gotell"].
Proof. apply (repository_split "netlify" "gotell"); reflexivity. Defined.

(** ** Where the comment file is written *)

(** Filing, with the path spelled out: the groups of the thread pattern are
    the directory, the clock reading taken at this point gives the
    milliseconds, and the slug of the body is the name. *)
Lemma file_stamped_at (E : Env) (entry : EntryData) (c : RawComment)
    (m0 m1 m2 m3 name : string) (n : nat) :
  threadRegexp_FindStringSubmatch (Thread entry) = [m0; m1; m2; m3] ->
  slug (Body c) = Ok name ->
  file_stamped E (getSettings E) entry c (nothing_written n [])
  = (if RequireApproval (getSettings E) || IsSuspicious E c
     then reviewed E (Split (API_Repository (config E)) "/")
            (comment_path E (m1 +:+ "/" +:+ m2 +:+ "/" +:+ m3) (clock E n) name)
            (json_Marshal_RawComment E c) (ToLower (TrimSpace (Body c))) c
     else direct E (Split (API_Repository (config E)) "/")
            (comment_path E (m1 +:+ "/" +:+ m2 +:+ "/" +:+ m3) (clock E n) name)
            (json_Marshal_RawComment E c) (ToLower (TrimSpace (Body c))) c)
      (nothing_written (S n) []).
Proof.
  intros Hm Hname. unfold slug in Hname. rewrite firstParagraph_is_body in Hname.
  unfold file_stamped, comment_path. rewrite Hm, firstParagraph_is_body.
  cbv [bind lift index_ nth_error]. rewrite Hname.
  cbv [time_Now nothing_written w calls ticks]. reflexivity.
Qed.

(** X6: a submission with an ASCII body that passes every gate, to a thread
    whose identifier is a run of digits, a hyphen, a run of digits, a hyphen
    and a slug on one line, has its comment file written at the path joined
    from the threads' source directory, the directory made of these three
    parts in their order, and the file name [<milliseconds>-<name>.json],
    where the milliseconds are the third clock reading after the gates
    divided by 1000000 and the name is the slug of the body.  On the direct
    path this is the path of the one [CreateFile] call, on [master]; on the
    review path it is the path of the third call, the [CreateFile] on
    [comment-ID], once [GetBranch] and [CreateRef] have succeeded. *)
Theorem comment_file_path (E : Env) (req : Request) (entry : EntryData)
    (comment : RawComment) (owner repo : string) (rest : list string)
    (d1 d2 slug_part : string) :
  reaches_verification E req entry comment ->
  Thread entry = d1 +:+ "-" +:+ d2 +:+ "-" +:+ slug_part ->
  d1 <> "" -> every is_digit d1 = true ->
  d2 <> "" -> every is_digit d2 = true ->
  slug_part <> "" -> every not_newline slug_part = true ->
  every is_ascii (Body comment) = true ->
  Split (API_Repository (config E)) "/" = owner :: repo :: rest ->
  exists verified name,
    verify E (Email comment) req = Ok verified
    /\ slug (Body comment) = Ok name
    /\ let c := stamped E req comment verified in
       let pathname :=
         comment_path E (d1 +:+ "/" +:+ d2 +:+ "/" +:+ slug_part)
                      (clock E (2 + ticks (after_gates E))) name in
       let message := ToLower (TrimSpace (Body comment)) in
       let content := json_Marshal_RawComment E c in
       (RequireApproval (getSettings E) || IsSuspicious E c = false ->
          calls (snd (serve E req))
          = [Repositories_CreateFile owner repo pathname message content "master"])
       /\ (RequireApproval (getSettings E) || IsSuspicious E c = true ->
           forall master,
             GetBranch_answer (client E) = (Some master, None) ->
             CreateRef_answer (client E) = None ->
             nth_error (calls (snd (serve E req))) 2
             = Some (Repositories_CreateFile owner repo pathname message content
                       ("comment-" +:+ ID c))).
Proof.
  intros Hr Hthread N1 D1 N2 D2 N3 D3 _ Hsplit.
  destruct (serve_stamped E req entry comment Hr) as (v & Hv & Hs).
  assert (Hname : exists name, slug (Body comment) = Ok name).
  { unfold slug. rewrite firstParagraph_is_body, name_of_total. eauto. }
  destruct Hname as [name Hname].
  exists v, name. split; [exact Hv|]. split; [exact Hname|]. cbv zeta.
  pose proof (thread_well_formed d1 d2 slug_part N1 D1 N2 D2 N3 D3) as Hg.
  rewrite <- Hthread in Hg.
  rewrite Hs.
  rewrite (file_stamped_at E entry (stamped E req comment v) _ d1 d2 slug_part name
             (S (S (ticks (after_gates E)))) Hg Hname).
  rewrite Hsplit.
  change (Body (stamped E req comment v)) with (Body comment).
  change (2 + ticks (after_gates E))%nat with (S (S (ticks (after_gates E)))).
  split; intros Hpath; rewrite Hpath.
  - apply direct_run.
  - intros master Hb Hc. unfold reviewed. run_all. rewrite Hb. run_all.
    rewrite Hc. run_all.
    destruct (CreateFile_answer (client E)); run_all;
      [|destruct (PullRequests_Create_answer (client E)); run_all]; reflexivity.
Qed.

Lemma comment_file_path_witness :
  exists verified name,
    verify demo_env (Email demo_comment) demo_request = Ok verified
    /\ slug (Body demo_comment) = Ok name
    /\ name = "hello-world-more-text"
    /\ calls (snd (serve demo_env demo_request))
       = [Repositories_CreateFile "netlify" "gotell"
            (comment_path demo_env "2016/10/my-post" (clock demo_env 3) name)
            (ToLower hello_body)
            (json_Marshal_RawComment demo_env
               (stamped demo_env demo_request demo_comment verified))
            "master"].
Proof.
  destruct (comment_file_path demo_env demo_request demo_entry demo_comment
              "netlify" "gotell" [] "2016" "10" "my-post")
    as (v & name & Hv & Hname & Hdirect & _);
    try reflexivity; try discriminate.
  - apply demo_reaches_verification; try reflexivity. now left.
  - exists v, name. split; [exact Hv|]. split; [exact Hname|].
    split; [vm_compute in Hname; congruence|].
    rewrite Hdirect by (destruct v; reflexivity). reflexivity.
Defined.
